(** * MediaPipe playground: the frame processing pipeline

    A shallow embedding of the core of the application
    ([core/utils.py], [core/models.py], [core/capture.py],
    [core/runner.py], [plugins/__init__.py] and the plugin modules) and
    the properties of its rolling metrics, capture source, plugin registry
    and pipeline runner.

    Python [float] is IEEE-754 binary64 and is modelled by Rocq's primitive
    floats; dictionaries are finite maps over strings; exceptions are an
    explicit result type; objects mutated in place become state passing. *)

From Stdlib Require Import PrimFloat Uint63 ZArith FloatOps SpecFloat.
From stdpp Require Import gmap strings list fin_maps pretty.

#[local] Set Warnings "-register-all,-inexact-float,-clear-no-such-hyp".

(** ** Python values and exceptions *)

Module py.

(** The values that appear in result dictionaries ([dict[str, Any]]). *)
Inductive PyVal : Type :=
  | VNone
  | VBool (b : bool)
  | VInt (z : Z)
  | VFloat (f : float)
  | VStr (s : string)
  | VList (l : list PyVal)
  | VDict (d : gmap string PyVal).

(** Exceptions, as far as the core tells them apart: the runner only
    takes [str(e)]. *)
Inductive PyExn : Type :=
  | ZeroDivisionError
  | ValueError (msg : string)
  | OverflowError (msg : string)
  | ImportError (msg : string)
  | FileNotFoundError (msg : string)
  | RuntimeError (msg : string).

(** [str(e)] *)
Definition str_exn (e : PyExn) : string :=
  match e with
  | ZeroDivisionError => "float division by zero"
  | ValueError m | OverflowError m | ImportError m
  | FileNotFoundError m | RuntimeError m => m
  end.

(** A call either returns or raises. *)
Inductive result (A : Type) : Type :=
  | Ok (a : A)
  | Raise (e : PyExn).
Arguments Ok {A} a.
Arguments Raise {A} e.

(** Sequencing: an exception raised by the first call skips the rest. *)
#[global] Instance result_bind : MBind result := λ A B k r,
  match r with
  | Ok a => k a
  | Raise e => Raise e
  end.

Definition is_ok {A} (r : result A) : bool :=
  match r with Ok _ => true | Raise _ => false end.

(** [for x in xs: acc = f(acc, x)] with a body that may raise: the first
    exception ends the loop. *)
Fixpoint for_each {A B} (f : A → B → result A) (acc : A) (xs : list B)
  : result A :=
  match xs with
  | [] => Ok acc
  | x :: xs =>
      match f acc x with
      | Ok acc => for_each f acc xs
      | Raise e => Raise e
      end
  end.

(** [len(xs)] as the float Python converts it to in [float / int]. *)
Definition float_of_len (n : nat) : float :=
  PrimFloat.of_uint63 (Uint63.of_Z (Z.of_nat n)).

(** [a / b] on floats: raises when the divisor compares equal to zero. *)
Definition truediv (a b : float) : result float :=
  if PrimFloat.eqb b 0%float then Raise ZeroDivisionError else Ok (a / b)%float.

(** [sum(xs)] over floats: accumulation from the integer start value 0,
    left to right. *)
Definition sum (xs : list float) : float := fold_left PrimFloat.add xs 0%float.

(** [x or d] for an optional float: [None] and zero are falsy. *)
Definition float_or (x : option float) (d : float) : float :=
  match x with
  | Some v => if PrimFloat.eqb v 0%float then d else v
  | None => d
  end.

(** [s or d] for an optional string: [None] and the empty string are falsy. *)
Definition str_or (s : option string) (d : string) : string :=
  match s with
  | Some v => if decide (v = "") then d else v
  | None => d
  end.

(** [int(x)] on a float: truncation towards zero; NaN and the infinities
    raise. *)
Definition int_of_float (x : float) : result Z :=
  match Prim2SF x with
  | S754_zero _ => Ok 0%Z
  | S754_infinity _ => Raise (OverflowError "cannot convert float infinity to integer")
  | S754_nan => Raise (ValueError "cannot convert float NaN to integer")
  | S754_finite s m e =>
      let mag := (if (0 <=? e)%Z then Z.shiftl (Z.pos m) e
                  else Z.shiftr (Z.pos m) (- e))%Z in
      Ok (if s then (- mag)%Z else mag)
  end.

End py.

Import py.

(** ** core/utils.py *)

Module utils.

(** [collections.deque(maxlen=n)]: appending to a full deque discards
    the item at the opposite (left) end; with [maxlen = 0] nothing is
    ever stored. *)
Record deque (A : Type) : Type := Deque { maxlen : nat; items : list A }.
Arguments Deque {A} maxlen items.
Arguments maxlen {A} d.
Arguments items {A} d.

Definition deque_new {A} (n : nat) : deque A := Deque n [].

Definition deque_append {A} (d : deque A) (v : A) : deque A :=
  if decide (maxlen d = 0) then d
  else if decide (length (items d) < maxlen d)
       then Deque (maxlen d) (items d ++ [v])
       else Deque (maxlen d) (tail (items d) ++ [v]).

Definition deque_clear {A} (d : deque A) : deque A := Deque (maxlen d) [].

(** [class RollingAverage] *)
Record RollingAverage : Type := mkRollingAverage { _values : deque float }.

Definition RollingAverage_init (maxlen : nat) : RollingAverage :=
  mkRollingAverage (deque_new maxlen).

Definition add (r : RollingAverage) (value : float) : RollingAverage :=
  mkRollingAverage (deque_append (_values r) value).

Definition average (r : RollingAverage) : float :=
  match items (_values r) with
  | [] => 0%float
  | vs => (py.sum vs / float_of_len (length vs))%float
  end.

Definition count (r : RollingAverage) : nat := length (items (_values r)).

Definition clear (r : RollingAverage) : RollingAverage :=
  mkRollingAverage (deque_clear (_values r)).

(** [class FPSCounter] *)
Record FPSCounter : Type := mkFPSCounter {
  _last_time : option float;
  _frame_times : deque float;
  _rolling : RollingAverage
}.

Definition FPSCounter_init (rolling_size : nat) : FPSCounter :=
  mkFPSCounter None (deque_new rolling_size) (RollingAverage_init rolling_size).

(** [tick]: [now] is the reading [time.perf_counter()] returns inside the
    call.  The object is updated before the division, so the new state is
    returned in both outcomes. *)
Definition tick (c : FPSCounter) (now : float)
  : FPSCounter * result (float * float) :=
  let '(latency_ms, frame_times, rolling) :=
    match _last_time c with
    | Some last =>
        let dt := (now - last)%float in
        let latency_ms := (dt * 1000)%float in
        (latency_ms, deque_append (_frame_times c) dt, add (_rolling c) latency_ms)
    | None => (0%float, _frame_times c, _rolling c)
    end in
  let c' := mkFPSCounter (Some now) frame_times rolling in
  (c', fps ← match last (items frame_times) with
             | Some recent => truediv 1%float recent
             | None => Ok 0%float
             end;
       Ok (fps, latency_ms)).

Definition rolling_average_ms (c : FPSCounter) : float := average (_rolling c).

Definition reset (c : FPSCounter) : FPSCounter :=
  mkFPSCounter None (deque_clear (_frame_times c)) (clear (_rolling c)).

(** The calls that change a [RollingAverage], and a sequence of them. *)
Inductive average_call : Type :=
  | Add (value : float)
  | Clear.

Definition do_average_call (r : RollingAverage) (c : average_call)
  : RollingAverage :=
  match c with
  | Add value => add r value
  | Clear => clear r
  end.

(** The calls that change an [FPSCounter], each [tick] with the clock
    reading it takes, and a sequence of them. *)
Inductive counter_call : Type :=
  | Do_tick (now : float)
  | Do_reset.

Definition do_counter_call (c : FPSCounter) (o : counter_call) : FPSCounter :=
  match o with
  | Do_tick now => (tick c now).1
  | Do_reset => reset c
  end.

(** The [n] most recent items of a history [l] (oldest first). *)
Definition most_recent {A} (n : nat) (l : list A) : list A :=
  drop (length l - n) l.

(** The arithmetic mean of the samples, 0 when there are none. *)
Definition mean_or_zero (l : list float) : float :=
  if decide (l = []) then 0%float
  else (py.sum l / float_of_len (length l))%float.

(** The values added since the last [clear], oldest first. *)
Definition added_since_clear (cs : list average_call) : list float :=
  foldl (λ acc c, match c with Add v => acc ++ [v] | Clear => [] end) [] cs.

(** The previous clock reading and the latencies measured since the last
    [reset], oldest first: the first [tick] after a [reset] measures
    nothing. *)
Definition measured_since_reset (os : list counter_call)
  : option float * list float :=
  foldl (λ acc o,
           match o with
           | Do_tick now =>
               (Some now,
                match acc.1 with
                | Some last => acc.2 ++ [((now - last) * 1000)%float]
                | None => acc.2
                end)
           | Do_reset => (None, [])
           end) (None, []) os.

End utils.

(** ** core/models.py *)

Module models.

(** [unified_results_schema]: the three optional arguments default to
    [None]. *)
Definition unified_results_schema
    (pipeline : string) (timestamp_s : float)
    (detections landmarks : option (list PyVal))
    (metadata : option (gmap string PyVal)) : gmap string PyVal :=
  <["metadata" := VDict (default ∅ metadata)]>
  (<["landmarks" := VList (default [] landmarks)]>
  (<["detections" := VList (default [] detections)]>
  (<["timestamp_s" := VFloat timestamp_s]>
  (<["pipeline" := VStr pipeline]> ∅)))).

End models.

(** ** OpenCV, as far as the capture source uses it *)

Module cv2.

(** A frame: a dense row-major BGR pixel buffer. *)
Record MatLike : Type := Mat { rows : nat; cols : nat; pixels : list N }.

Inductive Backend : Type := CAP_ANY | CAP_DSHOW.

(** What a [cv2.VideoCapture] is constructed on. *)
Inductive Target : Type :=
  | Device (index : Z) (api : Backend)
  | Filename (path : string).

(** The machine the process runs on: the platform, the streams behind
    the devices and files that can be opened ([None]: cannot be opened),
    and the backing handles currently held open. *)
Record Host : Type := mkHost {
  sys_platform : string;
  media : Target → option (list (bool * option MatLike));
  open_handles : gset nat;
  next_handle : nat
}.

(** A host on which no capture has been opened yet. *)
Definition Host_boot (platform : string)
    (media : Target → option (list (bool * option MatLike))) : Host :=
  mkHost platform media ∅ 0.

Record VideoCapture : Type := mkVideoCapture {
  handle : nat;
  opened : bool;
  stream : list (bool * option MatLike)
}.

(** [cv2.VideoCapture(target)]: the object always exists; it holds a
    backing handle only when the target could be opened. *)
Definition VideoCapture_init (h : Host) (t : Target) : Host * VideoCapture :=
  let id := next_handle h in
  match media h t with
  | Some frames =>
      (mkHost (sys_platform h) (media h) ({[id]} ∪ open_handles h) (S id),
       mkVideoCapture id true frames)
  | None =>
      (mkHost (sys_platform h) (media h) (open_handles h) (S id),
       mkVideoCapture id false [])
  end.

Definition release (h : Host) (vc : VideoCapture) : Host * VideoCapture :=
  (mkHost (sys_platform h) (media h) (open_handles h ∖ {[handle vc]}) (next_handle h),
   mkVideoCapture (handle vc) false []).

Definition isOpened (vc : VideoCapture) : bool := opened vc.

(** [cap.read()]: the next item of the stream; [(False, None)] once the
    stream is exhausted or when the capture is not open. *)
Definition read (vc : VideoCapture) : (bool * option MatLike) * VideoCapture :=
  if opened vc then
    match stream vc with
    | r :: rest => (r, mkVideoCapture (handle vc) true rest)
    | [] => ((false, None), vc)
    end
  else ((false, None), vc).

End cv2.

(** ** core/capture.py *)

Module capture.
Import cv2.

Record VideoCaptureSource : Type := mkVideoCaptureSource {
  _cap : option VideoCapture;
  _source_path : option string;
  _camera_index : Z
}.

Definition VideoCaptureSource_init : VideoCaptureSource :=
  mkVideoCaptureSource None None 0.

Definition close (h : Host) (s : VideoCaptureSource) : Host * VideoCaptureSource :=
  match _cap s with
  | Some vc =>
      let '(h', _) := release h vc in
      (h', mkVideoCaptureSource None None (_camera_index s))
  | None => (h, mkVideoCaptureSource None None (_camera_index s))
  end.

Definition open_camera (h : Host) (s : VideoCaptureSource) (index : Z)
  : Host * VideoCaptureSource * bool :=
  let '(h, s) := close h s in
  let '(h, vc) :=
    if decide (sys_platform h = "win32")
    then VideoCapture_init h (Device index CAP_DSHOW)
    else VideoCapture_init h (Device index CAP_ANY) in
  (h, mkVideoCaptureSource (Some vc) None index, isOpened vc).

Definition open_file (h : Host) (s : VideoCaptureSource) (path : string)
  : Host * VideoCaptureSource * bool :=
  let '(h, s) := close h s in
  let path_str := path in
  let '(h, vc) := VideoCapture_init h (Filename path_str) in
  (h, mkVideoCaptureSource (Some vc) (Some path_str) (_camera_index s), isOpened vc).

Definition is_opened (s : VideoCaptureSource) : bool :=
  match _cap s with
  | Some vc => isOpened vc
  | None => false
  end.

Definition read (s : VideoCaptureSource)
  : (bool * option MatLike) * VideoCaptureSource :=
  match _cap s with
  | None => ((false, None), s)
  | Some vc =>
      let '(r, vc') := cv2.read vc in
      (r, mkVideoCaptureSource (Some vc') (_source_path s) (_camera_index s))
  end.

Definition source_path (s : VideoCaptureSource) : option string := _source_path s.
Definition camera_index (s : VideoCaptureSource) : Z := _camera_index s.

(** The calls a client can make on a capture source, and their effect in
    sequence on the host and the source. *)
Inductive call : Type :=
  | Open_camera (index : Z)
  | Open_file (path : string)
  | Close
  | Read.

Definition do_call (st : Host * VideoCaptureSource) (c : call)
  : Host * VideoCaptureSource :=
  match c with
  | Open_camera index => (open_camera st.1 st.2 index).1
  | Open_file path => (open_file st.1 st.2 path).1
  | Close => close st.1 st.2
  | Read => (st.1, (read st.2).2)
  end.

Definition do_calls (st : Host * VideoCaptureSource) (cs : list call)
  : Host * VideoCaptureSource :=
  foldl do_call st cs.

(** The backing handles a source holds: that of its capture object, when
    it is open. *)
Definition held (s : VideoCaptureSource) : gset nat :=
  match _cap s with
  | Some vc => if opened vc then {[handle vc]} else ∅
  | None => ∅
  end.

(** What holds of the host and the source between any two calls: the
    handles open on the host are those the source holds, handles are handed
    out in increasing order, and a source without a capture object has no
    path. *)
Definition handles_consistent (st : Host * VideoCaptureSource) : Prop :=
  open_handles st.1 = held st.2
  ∧ (∀ x, x ∈ open_handles st.1 → x < next_handle st.1)
  ∧ (_cap st.2 = None → _source_path st.2 = None).

(** The properties the source asks its capture object for. *)
Inductive CapProp : Type :=
  | CAP_PROP_FPS
  | CAP_PROP_FRAME_WIDTH
  | CAP_PROP_FRAME_HEIGHT.

Section properties.
(** [cap.get(prop)]: what the backend reports for a capture object. *)
Variable cap_get : VideoCapture → CapProp → float.



End properties.

(** [k] calls of [read] in a row: what they return, in order, and the
    source they leave. *)
Fixpoint read_n (k : nat) (s : VideoCaptureSource)
  : list (bool * option MatLike) * VideoCaptureSource :=
  match k with
  | O => ([], s)
  | S k =>
      let '(r, s) := read s in
      let '(rs, s) := read_n k s in
      (r :: rs, s)
  end.

End capture.

(** ** core/camera_list.py *)

Module camera_list.
Import cv2.

(** One pass of the probing loop for index [i]. *)
Definition probe_one (acc : Host * list (Z * string)) (i : nat)
  : Host * list (Z * string) :=
  let '(h, result) := acc in
  let '(h, cap) := VideoCapture_init h (Device (Z.of_nat i) CAP_ANY) in
  if isOpened cap
  then
    let result := result ++ [(Z.of_nat i, "Camera " +:+ pretty i)] in
    let '(h, _) := release h cap in
    (h, result)
  else (h, result).

Definition _probe_opencv (h : Host) (max_cameras : nat)
  : Host * list (Z * string) :=
  foldl probe_one (h, []) (seq 0 max_cameras).

(** [list(enumerate(devices))] *)
Definition enumerate (devices : list string) : list (Z * string) :=
  imap (λ i name, (Z.of_nat i, name)) devices.

(** [get_camera_list]: [pygrabber] is what importing the DirectShow
    graph and asking it for its input devices gives on this machine; only
    an [ImportError] is caught. *)
Definition get_camera_list (h : Host) (pygrabber : result (list string))
  : Host * result (list (Z * string)) :=
  let probe := let '(h, r) := _probe_opencv h 16 in (h, Ok r) in
  if decide (sys_platform h = "win32") then
    match pygrabber with
    | Ok devices =>
        if decide (devices ≠ []) then (h, Ok (enumerate devices)) else probe
    | Raise (ImportError _) => probe
    | Raise e => (h, Raise e)
    end
  else probe.

(** The entry the probe makes for index [i]. *)
Definition camera_entry (i : nat) : Z * string :=
  (Z.of_nat i, "Camera " +:+ pretty i).

(** Whether the host can open the camera at index [i] with the default
    backend. *)
Definition openable (h : Host) (i : nat) : Prop :=
  is_Some (media h (Device (Z.of_nat i) CAP_ANY)).

(** The host hands out handles in increasing order: every handle that is
    open was handed out before. *)
Definition handles_fresh (h : Host) : Prop :=
  ∀ x, x ∈ open_handles h → x < next_handle h.

End camera_list.

(** ** core/model_loader.py *)

Module model_loader.

Definition _MODEL_URLS : list (string * string) :=
  [("hand_landmarker.task",
    "https://storage.googleapis.com/mediapipe-models/hand_landmarker/hand_landmarker/float16/latest/hand_landmarker.task");
   ("pose_landmarker_lite.task",
    "https://storage.googleapis.com/mediapipe-models/pose_landmarker/pose_landmarker_lite/float16/latest/pose_landmarker_lite.task");
   ("face_landmarker.task",
    "https://storage.googleapis.com/mediapipe-models/face_landmarker/face_landmarker/float16/latest/face_landmarker.task");
   ("efficientdet_lite0.tflite",
    "https://storage.googleapis.com/mediapipe-models/object_detector/efficientdet_lite0/float16/latest/efficientdet_lite0.tflite");
   ("blaze_face_short_range.tflite",
    "https://storage.googleapis.com/mediapipe-models/face_detector/blaze_face_short_range/float16/latest/blaze_face_short_range.tflite");
   ("gesture_recognizer.task",
    "https://storage.googleapis.com/mediapipe-models/gesture_recognizer/gesture_recognizer/float16/latest/gesture_recognizer.task")].

(** [_MODEL_URLS.get(filename)] *)
Definition url_of (filename : string) : option string :=
  (list_to_map _MODEL_URLS : gmap string string) !! filename.

(** [_MODELS_DIR / filename] *)
Inductive Path : Type := in_models_dir (filename : string).

(** What [urllib.request.urlretrieve(url, path)] does: it writes the file,
    or raises, leaving a partial file behind or not. *)
Inductive Retrieval : Type :=
  | Retrieved
  | Interrupted (e : PyExn) (partial_file : bool).

(** [str(list(_MODEL_URLS))] *)
Definition known_models : string :=
  "[" +:+ String.concat ", " ((λ kv, "'" +:+ kv.1 +:+ "'") <$> _MODEL_URLS) +:+ "]".

(** [get_model_path]: [files] are the names of the files in the models
    directory, [urlretrieve] what the network gives for a URL.  Returns the
    files afterwards, the URLs fetched, and the path or the exception. *)
Definition get_model_path (urlretrieve : string → Retrieval)
    (files : gset string) (filename : string)
  : gset string * list string * result Path :=
  let path := in_models_dir filename in
  if decide (filename ∈ files) then (files, [], Ok path)
  else
    match url_of filename with
    | Some url =>
        if decide (url = "")
        then (files, [],
              Raise (FileNotFoundError
                       ("Unknown model: " +:+ filename +:+ ". Known: "
                        +:+ known_models)))
        else
          match urlretrieve url with
          | Retrieved => ({[filename]} ∪ files, [url], Ok path)
          | Interrupted e partial_file =>
              (if partial_file then {[filename]} ∪ files else files, [url],
               Raise e)
          end
    | None =>
        (files, [],
         Raise (FileNotFoundError
                  ("Unknown model: " +:+ filename +:+ ". Known: "
                   +:+ known_models)))
    end.

End model_loader.

(** ** MediaPipe Tasks, as far as the plugins use them *)

Module mediapipe.
Import cv2.

Record Category : Type := mkCategory {
  category_name : option string;
  score : option float
}.

Record BoundingBox : Type := mkBoundingBox {
  origin_x : Z; origin_y : Z; width : Z; height : Z
}.

Record Detection : Type := mkDetection {
  categories : list Category;
  bounding_box : BoundingBox
}.

Record NormalizedLandmark : Type := mkLandmark {
  lm_x : option float; lm_y : option float;
  lm_z : option float; lm_visibility : option float
}.

Record DetectionResult : Type := mkDetectionResult {
  detections : list Detection
}.

Record PoseLandmarkerResult : Type := mkPoseResult {
  pose_landmarks : list (list NormalizedLandmark)
}.

Record FaceLandmarkerResult : Type := mkFaceResult {
  face_landmarks : list (list NormalizedLandmark)
}.

Record GestureRecognizerResult : Type := mkGestureResult {
  gestures : list (list Category);
  handedness : list (list Category);
  hand_landmarks : list (list NormalizedLandmark)
}.

(** [mp.Image]: an image in SRGB format over the pixel data. *)
Record Image : Type := mkImage { image_data : MatLike }.

(** A task object in VIDEO running mode: an opaque session that is
    advanced by every frame it is given and may fail. *)
Record Task (R : Type) : Type := mkTask {
  session : Type;
  current : session;
  infer : session → Image → Z → session * result R
}.
Arguments mkTask {R} session current infer.
Arguments session {R} t.
Arguments current {R} t.
Arguments infer {R} t.

(** [detect_for_video] / [recognize_for_video] *)
Definition for_video {R} (t : Task R) (image : Image) (timestamp_ms : Z)
  : Task R * result R :=
  let '(s, r) := infer t (current t) image timestamp_ms in
  (mkTask (session t) s (infer t), r).

(** The connection lists the plugins look up under
    [mp.tasks.vision.PoseLandmarksConnections],
    [HandLandmarksConnections] and [FaceLandmarksConnections]. *)
Inductive Connections : Type :=
  | POSE_LANDMARKS
  | HAND_CONNECTIONS
  | FACE_LANDMARKS_LIPS
  | FACE_LANDMARKS_LEFT_EYE
  | FACE_LANDMARKS_LEFT_EYEBROW
  | FACE_LANDMARKS_RIGHT_EYE
  | FACE_LANDMARKS_RIGHT_EYEBROW
  | FACE_LANDMARKS_FACE_OVAL
  | FACE_LANDMARKS_NOSE.

Record Connection : Type := mkConnection {
  conn_start : nat;
  conn_end : nat
}.

(** [mp.tasks.vision.drawing_utils]: each call draws on the image it is
    given, or raises. *)
Record DrawingUtils : Type := mkDrawingUtils {
  draw_detection : MatLike → Detection → result MatLike;
  draw_landmarks :
    MatLike → list NormalizedLandmark → list Connection → result MatLike
}.

(** What the plugins take from OpenCV, NumPy, MediaPipe and the model
    loader.  Every one of these calls and attribute lookups can raise, and
    [process] guards none of them: [cv2.cvtColor], the [mp.Image]
    constructor, [frame_bgr.copy()], the lookup of
    [mp.tasks.vision.drawing_utils], the lookup of a connection list (with
    that of the class holding it), and the creation of a task from a model
    file and settings. *)
Class Runtime : Type := {
  cvtColor_BGR2RGB : MatLike → result MatLike;
  Image_SRGB : MatLike → result Image;
  ndarray_copy : MatLike → result MatLike;
  vision_drawing_utils : result DrawingUtils;
  vision_connections : Connections → result (list Connection);
  create_from_options :
    ∀ R : Type, string → gmap string PyVal → result (Task R)
}.

End mediapipe.

(** ** plugins/base.py *)

Module base.
Import cv2.

(** [class MediaPipePluginBase(ABC)]: the methods the core calls.  A
    method that mutates the plugin returns the new object. *)
Class MediaPipePluginBase (P : Type) : Type := {
  plugin_id : P → string;
  display_name : P → string;
  default_settings : gmap string PyVal;
  init : P → gmap string PyVal → P * result ();
  process : P → MatLike → float → P * result (MatLike * gmap string PyVal);
  close : P → P
}.
#[global] Arguments default_settings P {_}.

End base.

(** Helpers shared by the plugin modules. *)

Module plugin_util.
Import mediapipe.

Definition float_val (x : option float) : PyVal :=
  match x with Some v => VFloat v | None => VNone end.

Definition str_val (x : option string) : PyVal :=
  match x with Some v => VStr v | None => VNone end.

(** The [bbox] entry of a detection. *)
Definition bbox_dict (box : BoundingBox) : PyVal :=
  VDict (<["height" := VInt (height box)]>
        (<["width" := VInt (width box)]>
        (<["origin_y" := VInt (origin_y box)]>
        (<["origin_x" := VInt (origin_x box)]> ∅)))).

(** [{"x": lm.x, "y": lm.y, "z": lm.z or 0.0}] *)
Definition point_xyz (lm : NormalizedLandmark) : gmap string PyVal :=
  <["z" := VFloat (float_or (lm_z lm) 0%float)]>
  (<["y" := float_val (lm_y lm)]>
  (<["x" := float_val (lm_x lm)]> ∅)).

(** The result every plugin returns when asked to process before [init]. *)
Definition not_initialized (plugin_id : string) (timestamp_s : float)
  : gmap string PyVal :=
  models.unified_results_schema plugin_id timestamp_s None None
    (Some {["error" := VStr "not initialized"]}).

(** A plugin object answers every [process] call without raising and
    without changing: it hands back the frame it was given, with a result
    in the unified schema that has no detections, no landmarks, and the
    metadata entry ["error": "not initialized"]. *)
Definition answers_not_initialized {P} `{base.MediaPipePluginBase P} (self : P)
  : Prop :=
  ∀ (frame : cv2.MatLike) (timestamp_s : float),
    ∃ results : gmap string PyVal,
      base.process self frame timestamp_s = (self, Ok (frame, results))
      ∧ dom results
        = {["pipeline"; "timestamp_s"; "detections"; "landmarks"; "metadata"]}
      ∧ results !! "pipeline" = Some (VStr (base.plugin_id self))
      ∧ results !! "timestamp_s" = Some (VFloat timestamp_s)
      ∧ results !! "detections" = Some (VList [])
      ∧ results !! "landmarks" = Some (VList [])
      ∧ results !! "metadata" = Some (VDict {["error" := VStr "not initialized"]}).

(** A result dictionary in the unified schema for a pipeline and a
    timestamp: exactly the five keys, with lists for the detections and the
    landmarks and a dictionary for the metadata. *)
Definition follows_schema (pipeline : string) (timestamp_s : float)
    (results : gmap string PyVal) : Prop :=
  dom results
  = {["pipeline"; "timestamp_s"; "detections"; "landmarks"; "metadata"]}
  ∧ results !! "pipeline" = Some (VStr pipeline)
  ∧ results !! "timestamp_s" = Some (VFloat timestamp_s)
  ∧ ∃ detections landmarks metadata,
      results !! "detections" = Some (VList detections)
      ∧ results !! "landmarks" = Some (VList landmarks)
      ∧ results !! "metadata" = Some (VDict metadata).

(** The metadata of a result holds the count [n] under [key], and the
    list under [counted] has [n] entries. *)
Definition counts (key counted : string) (results : gmap string PyVal) : Prop :=
  ∃ (items : list PyVal),
    results !! counted = Some (VList items)
    ∧ results !! "metadata"
      = Some (VDict {[key := VInt (Z.of_nat (length items))]}).

(** Every result a plugin's [process] returns is in the unified schema,
    for the plugin's identifier and the timestamp it was given. *)
Definition keeps_schema (P : Type) `{base.MediaPipePluginBase P} : Prop :=
  ∀ (self self' : P) frame timestamp_s annotated results,
    base.process self frame timestamp_s = (self', Ok (annotated, results)) →
    follows_schema (base.plugin_id self) timestamp_s results.

(** When the initialisation of a plugin fails, the plugin is left without
    a session: [process] answers "not initialized". *)
Definition init_fails_closed (P : Type) `{base.MediaPipePluginBase P} : Prop :=
  ∀ (self self' : P) settings e,
    base.init self settings = (self', Raise e) →
    answers_not_initialized self'.

End plugin_util.

(** ** plugins/face_detector.py *)

Module face_detector.
Import cv2 mediapipe base plugin_util.

Record FaceDetectorPlugin : Type := mkPlugin {
  _detector : option (Task DetectionResult)
}.

Definition FaceDetectorPlugin_init : FaceDetectorPlugin := mkPlugin None.

Section methods.
Context `{Runtime}.

Definition plugin_id : string := "face_detector".
Definition display_name : string := "Face Detector".

Definition default_settings : gmap string PyVal :=
  <["min_suppression_threshold" := VFloat 0.3%float]>
  (<["min_detection_confidence" := VFloat 0.5%float]> ∅).

Definition close (self : FaceDetectorPlugin) : FaceDetectorPlugin :=
  mkPlugin None.

Definition init (self : FaceDetectorPlugin) (settings : gmap string PyVal)
  : FaceDetectorPlugin * result () :=
  let self := close self in
  match create_from_options DetectionResult "blaze_face_short_range.tflite" settings with
  | Ok t => (mkPlugin (Some t), Ok ())
  | Raise e => (self, Raise e)
  end.

Definition detection_dict (det : Detection) : PyVal :=
  let score :=
    match categories det with
    | c :: _ => float_or (score c) 0%float
    | [] => 0%float
    end in
  VDict (<["bbox" := bbox_dict (bounding_box det)]>
        (<["score" := VFloat score]>
        (<["label" := VStr "face"]> ∅))).

Definition process (self : FaceDetectorPlugin) (frame_bgr : MatLike)
    (timestamp_s : float)
  : FaceDetectorPlugin * result (MatLike * gmap string PyVal) :=
  match _detector self with
  | None => (self, Ok (frame_bgr, not_initialized plugin_id timestamp_s))
  | Some detector =>
      match (rgb ← cvtColor_BGR2RGB frame_bgr;
             mp_image ← Image_SRGB rgb;
             timestamp_ms ← int_of_float (timestamp_s * 1000)%float;
             Ok (mp_image, timestamp_ms)) with
      | Raise e => (self, Raise e)
      | Ok (mp_image, timestamp_ms) =>
          let '(detector, r) := for_video detector mp_image timestamp_ms in
          (mkPlugin (Some detector),
           result ← r;
           annotated ← ndarray_copy frame_bgr;
           drawing_utils ← vision_drawing_utils;
           annotated ← for_each (draw_detection drawing_utils) annotated
                         (detections result);
           let detections_list := map detection_dict (detections result) in
           Ok (annotated,
               models.unified_results_schema plugin_id timestamp_s
                 (Some detections_list) (Some [])
                 (Some {["num_faces" := VInt (Z.of_nat (length detections_list))]})))
      end
  end.

#[global] Instance plugin_class : MediaPipePluginBase FaceDetectorPlugin := {|
  base.plugin_id := λ _, plugin_id;
  base.display_name := λ _, display_name;
  base.default_settings := default_settings;
  base.init := init;
  base.process := process;
  base.close := close
|}.
End methods.

End face_detector.

(** ** plugins/object_detector.py *)

Module object_detector.
Import cv2 mediapipe base plugin_util.

Record ObjectDetectorPlugin : Type := mkPlugin {
  _detector : option (Task DetectionResult)
}.

Definition ObjectDetectorPlugin_init : ObjectDetectorPlugin := mkPlugin None.

Section methods.
Context `{Runtime}.

Definition plugin_id : string := "object_detector".
Definition display_name : string := "Object Detector".

Definition default_settings : gmap string PyVal :=
  <["score_threshold" := VFloat 0.3%float]>
  (<["max_results" := VInt 5]> ∅).

Definition close (self : ObjectDetectorPlugin) : ObjectDetectorPlugin :=
  mkPlugin None.

Definition init (self : ObjectDetectorPlugin) (settings : gmap string PyVal)
  : ObjectDetectorPlugin * result () :=
  let self := close self in
  match create_from_options DetectionResult "efficientdet_lite0.tflite" settings with
  | Ok t => (mkPlugin (Some t), Ok ())
  | Raise e => (self, Raise e)
  end.

Definition detection_dict (det : Detection) : PyVal :=
  let '(label, score) :=
    match categories det with
    | c :: _ => (str_or (category_name c) "", float_or (score c) 0%float)
    | [] => ("", 0%float)
    end in
  VDict (<["bbox" := bbox_dict (bounding_box det)]>
        (<["score" := VFloat score]>
        (<["label" := VStr label]> ∅))).

Definition process (self : ObjectDetectorPlugin) (frame_bgr : MatLike)
    (timestamp_s : float)
  : ObjectDetectorPlugin * result (MatLike * gmap string PyVal) :=
  match _detector self with
  | None => (self, Ok (frame_bgr, not_initialized plugin_id timestamp_s))
  | Some detector =>
      match (rgb ← cvtColor_BGR2RGB frame_bgr;
             mp_image ← Image_SRGB rgb;
             timestamp_ms ← int_of_float (timestamp_s * 1000)%float;
             Ok (mp_image, timestamp_ms)) with
      | Raise e => (self, Raise e)
      | Ok (mp_image, timestamp_ms) =>
          let '(detector, r) := for_video detector mp_image timestamp_ms in
          (mkPlugin (Some detector),
           result ← r;
           annotated ← ndarray_copy frame_bgr;
           drawing_utils ← vision_drawing_utils;
           annotated ← for_each (draw_detection drawing_utils) annotated
                         (detections result);
           let detections_list := map detection_dict (detections result) in
           Ok (annotated,
               models.unified_results_schema plugin_id timestamp_s
                 (Some detections_list) (Some [])
                 (Some {["num_detections" := VInt (Z.of_nat (length detections_list))]})))
      end
  end.

#[global] Instance plugin_class : MediaPipePluginBase ObjectDetectorPlugin := {|
  base.plugin_id := λ _, plugin_id;
  base.display_name := λ _, display_name;
  base.default_settings := default_settings;
  base.init := init;
  base.process := process;
  base.close := close
|}.
End methods.

End object_detector.

(** ** plugins/pose.py *)

Module pose.
Import cv2 mediapipe base plugin_util.

Record PosePlugin : Type := mkPlugin {
  _landmarker : option (Task PoseLandmarkerResult)
}.

Definition PosePlugin_init : PosePlugin := mkPlugin None.

Section methods.
Context `{Runtime}.

Definition plugin_id : string := "pose".
Definition display_name : string := "Pose".

Definition default_settings : gmap string PyVal :=
  <["min_tracking_confidence" := VFloat 0.5%float]>
  (<["min_pose_presence_confidence" := VFloat 0.5%float]>
  (<["min_pose_detection_confidence" := VFloat 0.5%float]>
  (<["num_poses" := VInt 1]> ∅))).

Definition close (self : PosePlugin) : PosePlugin := mkPlugin None.

Definition init (self : PosePlugin) (settings : gmap string PyVal)
  : PosePlugin * result () :=
  let self := close self in
  match create_from_options PoseLandmarkerResult "pose_landmarker_lite.task" settings with
  | Ok t => (mkPlugin (Some t), Ok ())
  | Raise e => (self, Raise e)
  end.

Definition point (lm : NormalizedLandmark) : PyVal :=
  VDict (<["visibility" := VFloat (default 0%float (lm_visibility lm))]>
           (point_xyz lm)).

Definition points (lms : list NormalizedLandmark) : PyVal :=
  VList (map point lms).

Definition process (self : PosePlugin) (frame_bgr : MatLike) (timestamp_s : float)
  : PosePlugin * result (MatLike * gmap string PyVal) :=
  match _landmarker self with
  | None => (self, Ok (frame_bgr, not_initialized plugin_id timestamp_s))
  | Some landmarker =>
      match (rgb ← cvtColor_BGR2RGB frame_bgr;
             mp_image ← Image_SRGB rgb;
             timestamp_ms ← int_of_float (timestamp_s * 1000)%float;
             Ok (mp_image, timestamp_ms)) with
      | Raise e => (self, Raise e)
      | Ok (mp_image, timestamp_ms) =>
          let '(landmarker, r) := for_video landmarker mp_image timestamp_ms in
          (mkPlugin (Some landmarker),
           result ← r;
           annotated ← ndarray_copy frame_bgr;
           drawing_utils ← vision_drawing_utils;
           connections ← vision_connections POSE_LANDMARKS;
           annotated ← for_each
                         (λ img lms, draw_landmarks drawing_utils img lms
                                       connections)
                         annotated (pose_landmarks result);
           let landmarks_list := map points (pose_landmarks result) in
           Ok (annotated,
               models.unified_results_schema plugin_id timestamp_s
                 (Some []) (Some landmarks_list)
                 (Some {["has_pose" := VBool (bool_decide (0 < length landmarks_list))]})))
      end
  end.

#[global] Instance plugin_class : MediaPipePluginBase PosePlugin := {|
  base.plugin_id := λ _, plugin_id;
  base.display_name := λ _, display_name;
  base.default_settings := default_settings;
  base.init := init;
  base.process := process;
  base.close := close
|}.
End methods.

End pose.

(** ** plugins/facemesh.py *)

Module facemesh.
Import cv2 mediapipe base plugin_util.

Record FaceMeshPlugin : Type := mkPlugin {
  _landmarker : option (Task FaceLandmarkerResult)
}.

Definition FaceMeshPlugin_init : FaceMeshPlugin := mkPlugin None.

Section methods.
Context `{Runtime}.

Definition plugin_id : string := "facemesh".
Definition display_name : string := "Face Mesh".

Definition default_settings : gmap string PyVal :=
  <["min_tracking_confidence" := VFloat 0.5%float]>
  (<["min_face_presence_confidence" := VFloat 0.5%float]>
  (<["min_face_detection_confidence" := VFloat 0.5%float]>
  (<["num_faces" := VInt 1]> ∅))).

Definition close (self : FaceMeshPlugin) : FaceMeshPlugin := mkPlugin None.

Definition init (self : FaceMeshPlugin) (settings : gmap string PyVal)
  : FaceMeshPlugin * result () :=
  let self := close self in
  match create_from_options FaceLandmarkerResult "face_landmarker.task" settings with
  | Ok t => (mkPlugin (Some t), Ok ())
  | Raise e => (self, Raise e)
  end.

Definition points (lms : list NormalizedLandmark) : PyVal :=
  VList (map (λ lm, VDict (point_xyz lm)) lms).

Definition process (self : FaceMeshPlugin) (frame_bgr : MatLike) (timestamp_s : float)
  : FaceMeshPlugin * result (MatLike * gmap string PyVal) :=
  match _landmarker self with
  | None => (self, Ok (frame_bgr, not_initialized plugin_id timestamp_s))
  | Some landmarker =>
      match (rgb ← cvtColor_BGR2RGB frame_bgr;
             mp_image ← Image_SRGB rgb;
             timestamp_ms ← int_of_float (timestamp_s * 1000)%float;
             Ok (mp_image, timestamp_ms)) with
      | Raise e => (self, Raise e)
      | Ok (mp_image, timestamp_ms) =>
          let '(landmarker, r) := for_video landmarker mp_image timestamp_ms in
          (mkPlugin (Some landmarker),
           result ← r;
           annotated ← ndarray_copy frame_bgr;
           drawing_utils ← vision_drawing_utils;
           lips ← vision_connections FACE_LANDMARKS_LIPS;
           left_eye ← vision_connections FACE_LANDMARKS_LEFT_EYE;
           left_eyebrow ← vision_connections FACE_LANDMARKS_LEFT_EYEBROW;
           right_eye ← vision_connections FACE_LANDMARKS_RIGHT_EYE;
           right_eyebrow ← vision_connections FACE_LANDMARKS_RIGHT_EYEBROW;
           face_oval ← vision_connections FACE_LANDMARKS_FACE_OVAL;
           nose ← vision_connections FACE_LANDMARKS_NOSE;
           let all_connections :=
             lips ++ left_eye ++ left_eyebrow ++ right_eye ++ right_eyebrow
             ++ face_oval ++ nose in
           annotated ← for_each
                         (λ img lms, draw_landmarks drawing_utils img lms
                                       all_connections)
                         annotated (face_landmarks result);
           let landmarks_list := map points (face_landmarks result) in
           Ok (annotated,
               models.unified_results_schema plugin_id timestamp_s
                 (Some []) (Some landmarks_list)
                 (Some {["num_faces" := VInt (Z.of_nat (length landmarks_list))]})))
      end
  end.

#[global] Instance plugin_class : MediaPipePluginBase FaceMeshPlugin := {|
  base.plugin_id := λ _, plugin_id;
  base.display_name := λ _, display_name;
  base.default_settings := default_settings;
  base.init := init;
  base.process := process;
  base.close := close
|}.
End methods.

End facemesh.

(** ** plugins/gesture_recognizer.py *)

Module gesture_recognizer.
Import cv2 mediapipe base plugin_util.

Record GestureRecognizerPlugin : Type := mkPlugin {
  _recognizer : option (Task GestureRecognizerResult)
}.

Definition GestureRecognizerPlugin_init : GestureRecognizerPlugin := mkPlugin None.

Section methods.
Context `{Runtime}.

Definition plugin_id : string := "gesture_recognizer".
Definition display_name : string := "Gesture Recognizer".

Definition default_settings : gmap string PyVal :=
  <["min_tracking_confidence" := VFloat 0.5%float]>
  (<["min_hand_presence_confidence" := VFloat 0.5%float]>
  (<["min_hand_detection_confidence" := VFloat 0.5%float]>
  (<["num_hands" := VInt 2]> ∅))).

Definition close (self : GestureRecognizerPlugin) : GestureRecognizerPlugin :=
  mkPlugin None.

Definition init (self : GestureRecognizerPlugin) (settings : gmap string PyVal)
  : GestureRecognizerPlugin * result () :=
  let self := close self in
  match create_from_options GestureRecognizerResult "gesture_recognizer.task" settings with
  | Ok t => (mkPlugin (Some t), Ok ())
  | Raise e => (self, Raise e)
  end.

Definition points (lms : list NormalizedLandmark) : PyVal :=
  VList (map (λ lm, VDict (point_xyz lm)) lms).

(** One entry per non-empty gesture category list. *)
Definition gesture_dicts (gs : list (list Category)) : list (gmap string PyVal) :=
  omap (λ gesture_cats,
          match gesture_cats with
          | c :: _ =>
              Some (<["score" := VFloat (float_or (score c) 0%float)]>
                   (<["label" := VStr (str_or (category_name c) "")]> ∅))
          | [] => None
          end) gs.

(** [detections_list[i]["handedness"] = hand_label] for every index
    [i] of [result.handedness] that is within [detections_list]. *)
Definition set_handedness (detections_list : list (gmap string PyVal))
    (hs : list (list Category)) : list (gmap string PyVal) :=
  foldl (λ dl '(i, handedness_cats),
           let hand_label :=
             match handedness_cats with
             | c :: _ => str_val (category_name c)
             | [] => VStr ""
             end in
           if decide (i < length dl)
           then alter (insert "handedness" hand_label) i dl
           else dl)
        detections_list (imap pair hs).

Definition process (self : GestureRecognizerPlugin) (frame_bgr : MatLike)
    (timestamp_s : float)
  : GestureRecognizerPlugin * result (MatLike * gmap string PyVal) :=
  match _recognizer self with
  | None => (self, Ok (frame_bgr, not_initialized plugin_id timestamp_s))
  | Some recognizer =>
      match (rgb ← cvtColor_BGR2RGB frame_bgr;
             mp_image ← Image_SRGB rgb;
             timestamp_ms ← int_of_float (timestamp_s * 1000)%float;
             Ok (mp_image, timestamp_ms)) with
      | Raise e => (self, Raise e)
      | Ok (mp_image, timestamp_ms) =>
          let '(recognizer, r) := for_video recognizer mp_image timestamp_ms in
          (mkPlugin (Some recognizer),
           result ← r;
           annotated ← ndarray_copy frame_bgr;
           drawing_utils ← vision_drawing_utils;
           connections ← vision_connections HAND_CONNECTIONS;
           annotated ← for_each
                         (λ img lms, draw_landmarks drawing_utils img lms
                                       connections)
                         annotated (hand_landmarks result);
           let landmarks_list := map points (hand_landmarks result) in
           let detections_list :=
             set_handedness (gesture_dicts (gestures result)) (handedness result) in
           Ok (annotated,
               models.unified_results_schema plugin_id timestamp_s
                 (Some (map VDict detections_list)) (Some landmarks_list)
                 (Some {["num_hands" := VInt (Z.of_nat (length landmarks_list))]})))
      end
  end.

#[global] Instance plugin_class : MediaPipePluginBase GestureRecognizerPlugin := {|
  base.plugin_id := λ _, plugin_id;
  base.display_name := λ _, display_name;
  base.default_settings := default_settings;
  base.init := init;
  base.process := process;
  base.close := close
|}.
End methods.

End gesture_recognizer.

(** ** plugins/__init__.py *)

Module plugins.
Import base.

(** A plugin object of any class implementing the interface. *)
Record Plugin : Type := mkPlugin {
  plugin_type : Type;
  plugin_class : MediaPipePluginBase plugin_type;
  plugin_obj : plugin_type
}.

(** [p.plugin_id] *)
Definition id_of (p : Plugin) : string :=
  @plugin_id _ (plugin_class p) (plugin_obj p).

(** What an executed module exposes: a [plugin] attribute, and a
    [Plugin] class whose instantiation may raise. *)
Record PyModule : Type := mkModule {
  attr_plugin : option Plugin;
  attr_Plugin : option (result Plugin)
}.

(** What is found at [plugins/<name>.py]: nothing, a file for which no
    import spec with a loader can be made, or a source file whose
    execution yields a module or raises. *)
Inductive ModuleFile : Type :=
  | NotAFile
  | NoSpec
  | Source (exec_module : result PyModule).

(** The plugins directory: the file behind each module name, and the
    file names [glob("*.py")] yields, in its order. *)
Record PluginsDir : Type := mkPluginsDir {
  module_file : string → ModuleFile;
  glob_py : list string
}.

Definition _BUILTIN_PLUGINS : list string :=
  ["hands"; "pose"; "facemesh"; "object_detector"; "face_detector";
   "gesture_recognizer"].

(** The entry the function makes in [sys.modules] is read by nothing in
    the discovery and is left out. *)
Definition _load_plugin_from_module (d : PluginsDir) (module_name : string)
  : result (option Plugin) :=
  match module_file d module_name with
  | NotAFile => Ok None
  | NoSpec => Ok None
  | Source exec_module =>
      module ← exec_module;
      match attr_plugin module with
      | Some p => Ok (Some p)
      | None =>
          match attr_Plugin module with
          | Some cls => p ← cls; Ok (Some p)
          | None => Ok None
          end
      end
  end.

(** The body shared by both loops: keep [p] when it is a plugin with a
    non-empty identifier not seen before. *)
Definition keep (acc : list Plugin * gset string) (p : option Plugin)
  : list Plugin * gset string :=
  match p with
  | Some p =>
      if decide (id_of p ≠ "" ∧ id_of p ∉ acc.2)
      then (acc.1 ++ [p], {[id_of p]} ∪ acc.2)
      else acc
  | None => acc
  end.

Fixpoint load_each (d : PluginsDir) (names : list string)
    (acc : list Plugin * gset string) : result (list Plugin * gset string) :=
  match names with
  | [] => Ok acc
  | name :: names =>
      p ← _load_plugin_from_module d name;
      load_each d names (keep acc p)
  end.

(** [path.stem] of a name matched by [*.py]. *)
Definition stem (name : string) : string :=
  String.substring 0 (String.length name - 3) name.

(** The module names the second loop loads. *)
Definition extra_modules (d : PluginsDir) : list string :=
  filter (λ module_name, module_name ∉ _BUILTIN_PLUGINS)
    (stem <$> filter (λ name, ¬ (String.prefix "_" name = true ∨ name = "base.py"))
                     (glob_py d)).

Definition discover_plugins (d : PluginsDir) : result (list Plugin) :=
  acc ← load_each d _BUILTIN_PLUGINS ([], ∅);
  acc ← load_each d (extra_modules d) acc;
  Ok acc.1.



End plugins.

(** ** core/runner.py *)

Module runner.
Import cv2 capture utils base.

(** The three signals of the runner. *)
Inductive Signal : Type :=
  | frame_processed (frame : MatLike) (results : gmap string PyVal)
      (fps latency_ms rolling_ms : float)
  | error_occurred (message : string)
  | stopped.

(** What the worker does that others can observe: reads from the
    capture source, calls of the plugin's [process], emitted signals. *)
Inductive Event : Type :=
  | Read (ok : bool) (frame : option MatLike)
  | Process (frame : MatLike) (timestamp_s : float)
      (outcome : result (MatLike * gmap string PyVal))
  | Emit (s : Signal).

Record QThread : Type := mkQThread { isRunning : bool }.

Record FrameProcessorRunner (P : Type) : Type := mkRunner {
  _capture : VideoCaptureSource;
  _plugin : option P;
  _running : bool;
  _thread : option QThread;
  _fps_counter : FPSCounter
}.
Arguments mkRunner {P}.
Arguments _capture {P}.
Arguments _plugin {P}.
Arguments _running {P}.
Arguments _thread {P}.
Arguments _fps_counter {P}.

(** What the loop takes from outside while it runs: the successive
    readings of [time.perf_counter()], and whether the consumer has
    called [stop()] by the time the loop condition is tested for the
    n-th time. *)
Record Env : Type := mkEnv {
  perf_counter : nat → float;
  stop_called : nat → bool
}.

Section methods.
Context {P : Type} `{MediaPipePluginBase P}.

Definition FrameProcessorRunner_init (capture : VideoCaptureSource)
  : FrameProcessorRunner P :=
  mkRunner capture None false None (FPSCounter_init 30).

Definition set_plugin (self : FrameProcessorRunner P) (plugin : option P)
  : FrameProcessorRunner P :=
  mkRunner (_capture self) plugin (_running self) (_thread self)
           (_fps_counter self).

(** [start]: returns the runner and the worker threads it started. *)
Definition start (self : FrameProcessorRunner P)
  : FrameProcessorRunner P * list QThread :=
  if _running self then (self, [])
  else
    let thread := mkQThread true in
    (mkRunner (_capture self) (_plugin self) true (Some thread)
              (_fps_counter self),
     [thread]).

Definition stop (self : FrameProcessorRunner P) : FrameProcessorRunner P :=
  mkRunner (_capture self) (_plugin self) false (_thread self)
           (_fps_counter self).

Definition finish_thread (self : FrameProcessorRunner P)
  : FrameProcessorRunner P :=
  mkRunner (_capture self) (_plugin self) (_running self) None
           (_fps_counter self).

(** The state of the worker between two iterations: the runner, the
    number of clock readings taken and of loop tests made so far. *)
Record Worker : Type := mkWorker {
  self_ : FrameProcessorRunner P;
  clock : nat;
  tests : nat
}.

(** How one pass through the loop ends. *)
Inductive Flow : Type :=
  | Continue (w : Worker)
  | Break (w : Worker)
  | Return (w : Worker).

(** The [except Exception] handler. *)
Definition on_exception (self : FrameProcessorRunner P) (e : PyExn)
  : list Event * FrameProcessorRunner P :=
  ([Emit (error_occurred (str_exn e)); Emit stopped],
   mkRunner (_capture self) (_plugin self) false (_thread self)
            (_fps_counter self)).

(** One test of the loop condition and, when it holds, one pass
    through the loop body. *)
Definition iteration (env : Env) (w : Worker) : list Event * Flow :=
  let self := if stop_called env (tests w) then stop (self_ w) else self_ w in
  let tests := S (tests w) in
  if negb (_running self && is_opened (_capture self))
  then ([], Break (mkWorker self (clock w) tests))
  else
    let '((ok, frame), cap) := capture.read (_capture self) in
    let self := mkRunner cap (_plugin self) (_running self) (_thread self)
                         (_fps_counter self) in
    match ok, frame with
    | true, Some frame =>
        let timestamp_s := perf_counter env (clock w) in
        let clock := S (clock w) in
        match _plugin self with
        | None =>
            ([Read ok (Some frame);
              Emit (frame_processed frame ∅ 0%float 0%float 0%float)],
             Continue (mkWorker self clock tests))
        | Some plugin =>
            let '(plugin, outcome) := process plugin frame timestamp_s in
            let self := mkRunner (_capture self) (Some plugin) (_running self)
                                 (_thread self) (_fps_counter self) in
            let called := [Read ok (Some frame);
                           Process frame timestamp_s outcome] in
            match outcome with
            | Raise e =>
                let '(evs, self) := on_exception self e in
                (called ++ evs, Return (mkWorker self clock tests))
            | Ok (annotated, results) =>
                let '(counter, ticked) :=
                  tick (_fps_counter self) (perf_counter env clock) in
                let clock := S clock in
                let self := mkRunner (_capture self) (_plugin self)
                                     (_running self) (_thread self) counter in
                match ticked with
                | Raise e =>
                    let '(evs, self) := on_exception self e in
                    (called ++ evs, Return (mkWorker self clock tests))
                | Ok (fps, latency_ms) =>
                    let rolling_ms := rolling_average_ms (_fps_counter self) in
                    (called ++
                     [Emit (frame_processed annotated results fps latency_ms
                                            rolling_ms)],
                     Continue (mkWorker self clock tests))
                end
            end
        end
    | _, _ => ([Read ok frame], Break (mkWorker self (clock w) tests))
    end.

(** The [while] loop and the [stopped.emit()] after it, for at most
    [fuel] passes. *)
Fixpoint loop (fuel : nat) (env : Env) (w : Worker)
  : option (Worker * list Event) :=
  match fuel with
  | O => None
  | S fuel =>
      match iteration env w with
      | (evs, Continue w) =>
          '(w, rest) ← loop fuel env w; Some (w, evs ++ rest)
      | (evs, Break w) => Some (w, evs ++ [Emit stopped])
      | (evs, Return w) => Some (w, evs)
      end
  end.

(** The items the capture source can still deliver. *)
Definition pending (s : VideoCaptureSource) : list (bool * option MatLike) :=
  match _cap s with
  | Some vc => stream vc
  | None => []
  end.

(** [_run_loop]: every pass that continues takes one item from the
    source, so one pass more than there are items is enough. *)
Definition _run_loop (env : Env) (self : FrameProcessorRunner P)
  : option (FrameProcessorRunner P * list Event) :=
  let self := mkRunner (_capture self) (_plugin self) (_running self)
                       (_thread self) (reset (_fps_counter self)) in
  '(w, evs) ← loop (S (length (pending (_capture self)))) env
                   (mkWorker self 0 0);
  Some (self_ w, evs).

End methods.

(** The signals among the events, in order. *)
Definition signals (evs : list Event) : list Signal :=
  omap (λ e, match e with Emit s => Some s | _ => None end) evs.

(** The outcomes of the plugin calls among the events, in order. *)
Definition outcomes (evs : list Event)
  : list (result (MatLike * gmap string PyVal)) :=
  omap (λ e, match e with Process _ _ o => Some o | _ => None end) evs.

(** The frames successfully read, in order. *)
Definition frames_read (evs : list Event) : list MatLike :=
  omap (λ e, match e with Read true (Some f) => Some f | _ => None end) evs.

Section runs.
Context {P : Type} `{MediaPipePluginBase P}.

(** The events of one pass that reads frame [f] and emits the frame-ready
    signal [s]: in pass-through mode ([plugged = false]) the raw frame with
    an empty dictionary and zero timing, otherwise what a successful call
    of [process] on [f] returned. *)
Inductive pass_events : bool → MatLike → Signal → list Event → Prop :=
  | pass_through f :
      pass_events false f
        (frame_processed f ∅ 0%float 0%float 0%float)
        [Read true (Some f);
         Emit (frame_processed f ∅ 0%float 0%float 0%float)]
  | pass_processed f ts (p p' : P) annotated results fps latency_ms rolling_ms :
      process p f ts = (p', Ok (annotated, results)) →
      pass_events true f
        (frame_processed annotated results fps latency_ms rolling_ms)
        [Read true (Some f);
         Process f ts (Ok (annotated, results));
         Emit (frame_processed annotated results fps latency_ms rolling_ms)].

(** The events that end a run: the loop condition fails, a read fails, the
    plugin raises, or the metrics raise after the plugin returned. *)
Inductive end_events : bool → list Event → Prop :=
  | end_condition plugged : end_events plugged [Emit stopped]
  | end_of_stream plugged ok frame :
      ok = false ∨ frame = None →
      end_events plugged [Read ok frame; Emit stopped]
  | end_plugin_raised f ts (p p' : P) e :
      process p f ts = (p', Raise e) →
      end_events true
        [Read true (Some f); Process f ts (Raise e);
         Emit (error_occurred (str_exn e)); Emit stopped]
  | end_metrics_raised f ts (p p' : P) annotated results e :
      process p f ts = (p', Ok (annotated, results)) →
      end_events true
        [Read true (Some f); Process f ts (Ok (annotated, results));
         Emit (error_occurred (str_exn e)); Emit stopped].

(** The events of a whole run: passes that emit a frame, then an end. *)
Inductive run_events (plugged : bool) : list Event → Prop :=
  | run_end evs : end_events plugged evs → run_events plugged evs
  | run_pass f s evs rest :
      pass_events plugged f s evs →
      run_events plugged rest →
      run_events plugged (evs ++ rest).

(** The events of the passes over [frames], one pass for each, from the
    plugin, the counter and the number of clock readings that the pass
    before left behind.  Each pass reads its frame; without a plugin it
    emits the raw frame with the empty dictionary and zero timing; with a
    plugin it calls [process] on the frame at the next clock reading,
    then [tick], and emits what the two returned.  A call that raises is
    followed by the error and the stopped signal, and no pass comes after
    it. *)
Fixpoint frame_passes (env : Env) (plugin : option P) (counter : FPSCounter)
    (clock : nat) (frames : list MatLike) : list Event :=
  match frames with
  | [] => []
  | frame :: frames =>
      Read true (Some frame) ::
      match plugin with
      | None =>
          Emit (frame_processed frame ∅ 0%float 0%float 0%float)
          :: frame_passes env None counter (S clock) frames
      | Some plugin =>
          let timestamp_s := perf_counter env clock in
          let '(plugin, outcome) := process plugin frame timestamp_s in
          Process frame timestamp_s outcome ::
          match outcome with
          | Raise e => [Emit (error_occurred (str_exn e)); Emit stopped]
          | Ok (annotated, results) =>
              let '(counter, ticked) :=
                tick counter (perf_counter env (S clock)) in
              match ticked with
              | Raise e => [Emit (error_occurred (str_exn e)); Emit stopped]
              | Ok (fps, latency_ms) =>
                  Emit (frame_processed annotated results fps latency_ms
                          (rolling_average_ms counter))
                  :: frame_passes env (Some plugin) counter (S (S clock)) frames
              end
          end
      end
  end.

(** The events between the last pass and the stopped signal of a run
    that ends without an error: none when the loop condition fails, the
    failed read when the source has no frame to give. *)
Definition last_read (evs : list Event) : Prop :=
  evs = [] ∨ ∃ ok frame, (ok = false ∨ frame = None) ∧ evs = [Read ok frame].

(** Signal [s] is what a runner emits for frame [f]: without a plugin
    the raw frame with the empty dictionary and zero timing; with a plugin
    the annotated frame and the results that a call of [process] on [f]
    returned, with its metrics. *)
Definition emitted_for (plugged : bool) (f : MatLike) (s : Signal) : Prop :=
  if plugged
  then ∃ (p p' : P) ts annotated results fps latency_ms rolling_ms,
         process p f ts = (p', Ok (annotated, results))
         ∧ s = frame_processed annotated results fps latency_ms rolling_ms
  else s = frame_processed f ∅ 0%float 0%float 0%float.

End runs.

(** Whether the runner has a plugin. *)
Definition plugged {P} (self : FrameProcessorRunner P) : bool :=
  bool_decide (is_Some (_plugin self)).

(** The runner with another metrics counter in place of its own. *)
Definition with_counter {P} (self : FrameProcessorRunner P) (c : FPSCounter)
  : FrameProcessorRunner P :=
  mkRunner (_capture self) (_plugin self) (_running self) (_thread self) c.

(** Whether an error signal is among the events. *)
Definition failed (evs : list Event) : bool :=
  existsb (λ s, match s with error_occurred _ => true | _ => false end)
          (signals evs).

(** The frames handed to the plugin, in order. *)
Definition frames_processed (evs : list Event) : list MatLike :=
  omap (λ e, match e with Process f _ _ => Some f | _ => None end) evs.

(** The calls that returned, among the outcomes. *)
Definition returned (os : list (result (MatLike * gmap string PyVal)))
  : list (MatLike * gmap string PyVal) :=
  omap (λ o, match o with Ok r => Some r | Raise _ => None end) os.

(** Signal [s] is a frame-ready signal carrying what a plugin call
    returned. *)
Definition carries (o : MatLike * gmap string PyVal) (s : Signal) : Prop :=
  ∃ fps latency_ms rolling_ms,
    s = frame_processed o.1 o.2 fps latency_ms rolling_ms.

End runner.

(** ** ui/main_window.py: the initialisation worker *)

Module main_window.
Import base.

(** [PluginInitWorker.run]: returns the plugin as [init] left it and the
    [init_done] signals emitted, each with its success flag and error
    message (the third argument of the signal is the plugin itself). *)
Definition PluginInitWorker_run {P} `{MediaPipePluginBase P}
    (_plugin : P) (_settings : gmap string PyVal) : P * list (bool * string) :=
  let '(plugin, r) := init _plugin _settings in
  match r with
  | Ok _ => (plugin, [(true, "")])
  | Raise e => (plugin, [(false, str_exn e)])
  end.

End main_window.

(** ** Concrete objects used to exercise the definitions *)

Module demo.
Import cv2 capture utils base runner.

(** A runtime without model files: colour conversion, copying and
    drawing hand back the image as it is, no task can be created. *)
#[global] Instance no_models : mediapipe.Runtime := {|
  mediapipe.cvtColor_BGR2RGB := λ img, Ok img;
  mediapipe.Image_SRGB := λ img, Ok (mediapipe.mkImage img);
  mediapipe.ndarray_copy := λ img, Ok img;
  mediapipe.vision_drawing_utils :=
    Ok (mediapipe.mkDrawingUtils (λ img _, Ok img) (λ img _ _, Ok img));
  mediapipe.vision_connections := λ _, Ok [];
  mediapipe.create_from_options :=
    λ R name _, Raise (FileNotFoundError ("Unknown model: " +:+ name))
|}.

(** A test plugin that counts its [process] calls and raises on the
    fifth. *)
Record Flaky : Type := mkFlaky { calls : nat }.

#[global] Instance Flaky_class : MediaPipePluginBase Flaky := {|
  plugin_id := λ _, "flaky";
  display_name := λ _, "Flaky";
  default_settings := ∅;
  init := λ self _, (self, Ok ());
  process := λ self frame timestamp_s,
    (mkFlaky (S (calls self)),
     if decide (calls self = 4) then Raise (RuntimeError "boom")
     else Ok (frame, models.unified_results_schema "flaky" timestamp_s
                       None None None));
  close := λ self, self
|}.

(** Frame number [n]: a single pixel. *)
Definition frame (n : N) : MatLike := Mat 1 1 [n].

(** A file of [n] frames, opened. *)
Definition clip (n : nat) : VideoCaptureSource :=
  mkVideoCaptureSource
    (Some (mkVideoCapture 0 true
             ((λ i, (true, Some (frame (N.of_nat i)))) <$> seq 0 n)))
    (Some "clip.mp4") 0.

(** A clock that advances by a quarter of a second per reading, and a
    consumer that never calls [stop()]. *)
Definition quarter_seconds : Env :=
  mkEnv (λ n, (float_of_len n * 0.25)%float) (λ _, false).

(** A consumer that has called [stop()] by the fourth test of the loop
    condition. *)
Definition stop_after_three : Env :=
  mkEnv (λ n, (float_of_len n * 0.25)%float) (λ n, bool_decide (3 ≤ n)).

(** A started runner on a clip of [n] frames. *)
Definition started {P} (plugin : option P) (n : nat) : FrameProcessorRunner P :=
  mkRunner (clip n) plugin true (Some (mkQThread true)) (FPSCounter_init 30).

(** A detection task that never detects anything, and one whose
    inference fails. *)
Definition quiet_task : mediapipe.Task mediapipe.DetectionResult :=
  mediapipe.mkTask unit tt
    (λ _ _ _, (tt, Ok (mediapipe.mkDetectionResult []))).

Definition broken_task : mediapipe.Task mediapipe.DetectionResult :=
  mediapipe.mkTask unit tt
    (λ _ _ _, (tt, Raise (RuntimeError "inference failed"))).

(** A host with a camera at index 0 and the file "clip.mp4". *)
Definition media (t : Target) : option (list (bool * option MatLike)) :=
  match t with
  | Device 0 _ => Some [(true, Some (frame 0)); (true, Some (frame 1))]
  | Filename "clip.mp4" => Some [(true, Some (frame 7))]
  | _ => None
  end.

(** A counter that has measured two intervals. *)
Definition used_counter : FPSCounter :=
  foldl do_counter_call (FPSCounter_init 30) [Do_tick 1%float; Do_tick 3%float; Do_tick 4%float].

(** The events of a run, when it returns. *)
Definition events_of {P} (run : option (FrameProcessorRunner P * list Event))
  : list Event :=
  match run with
  | Some (_, evs) => evs
  | None => []
  end.

(** The runner a run leaves behind; the runner it began with when the run
    does not return. *)
Definition final_of {P} (self : FrameProcessorRunner P)
    (run : option (FrameProcessorRunner P * list Event))
  : FrameProcessorRunner P :=
  match run with
  | Some (self', _) => self'
  | None => self
  end.

(** The plugins directory as it is when the [hands] module cannot be
    imported: the five other built-in modules each define [plugin]. *)
Definition module_with (p : plugins.Plugin) : plugins.ModuleFile :=
  plugins.Source (Ok (plugins.mkModule (Some p) None)).

Definition builtin_files (hands : plugins.ModuleFile) (name : string)
  : plugins.ModuleFile :=
  if decide (name = "hands") then hands
  else if decide (name = "pose")
  then module_with (plugins.mkPlugin _ pose.plugin_class pose.PosePlugin_init)
  else if decide (name = "facemesh")
  then module_with (plugins.mkPlugin _ facemesh.plugin_class
                      facemesh.FaceMeshPlugin_init)
  else if decide (name = "object_detector")
  then module_with (plugins.mkPlugin _ object_detector.plugin_class
                      object_detector.ObjectDetectorPlugin_init)
  else if decide (name = "face_detector")
  then module_with (plugins.mkPlugin _ face_detector.plugin_class
                      face_detector.FaceDetectorPlugin_init)
  else if decide (name = "gesture_recognizer")
  then module_with (plugins.mkPlugin _ gesture_recognizer.plugin_class
                      gesture_recognizer.GestureRecognizerPlugin_init)
  else plugins.NotAFile.

Definition listing : list string :=
  ["__init__.py"; "base.py"; "face_detector.py"; "facemesh.py";
   "gesture_recognizer.py"; "hands.py"; "object_detector.py"; "pose.py"].


Definition hands_absent : plugins.PluginsDir :=
  plugins.mkPluginsDir (builtin_files plugins.NotAFile) listing.

End demo.

(** * Properties *)

(** ** The rolling metrics (core/utils.py) *)

Section rolling_metrics.
Import utils.

Example tick_after_init :
  (tick (FPSCounter_init 30) 1.5%float).2 = Ok (0%float, 0%float).
Proof. reflexivity. Qed.

Example tick_quarter_second :
  (tick (tick (FPSCounter_init 30) 1%float).1 1.25%float).2
  = Ok (4%float, 250%float).
Proof. reflexivity. Qed.

(** Two ticks at one clock reading: the division raises. *)
Example tick_zero_interval :
  (tick (tick (FPSCounter_init 30) 1%float).1 1%float).2
  = Raise ZeroDivisionError.
Proof. reflexivity. Qed.

Lemma most_recent_length {A} n (l : list A) : length (most_recent n l) ≤ n.
Proof. unfold most_recent. rewrite length_drop. lia. Qed.

Lemma most_recent_all {A} n (l : list A) : length l ≤ n → most_recent n l = l.
Proof.
  intros Hle. unfold most_recent.
  replace (length l - n) with 0 by lia. reflexivity.
Qed.

Lemma most_recent_snoc {A} n (l : list A) v :
  most_recent n (most_recent n l ++ [v]) = most_recent n (l ++ [v]).
Proof.
  unfold most_recent. rewrite !length_app, length_drop. simpl.
  destruct (decide (length l ≤ n)) as [Hle|Hgt].
  - replace (length l - n) with 0 by lia. simpl.
    replace (length l - 0) with (length l) by lia. reflexivity.
  - replace (length l - (length l - n) + 1 - n) with 1 by lia.
    replace (length l + 1 - n) with (length l - n + 1) by lia.
    rewrite <- drop_drop.
    f_equal. symmetry. apply drop_app_le. lia.
Qed.

Lemma deque_append_maxlen {A} (d : deque A) v :
  maxlen (deque_append d v) = maxlen d.
Proof. unfold deque_append. repeat case_decide; reflexivity. Qed.

(** Appending keeps the most recent [maxlen] items. *)
Lemma deque_append_items {A} (d : deque A) v :
  length (items d) ≤ maxlen d →
  items (deque_append d v) = most_recent (maxlen d) (items d ++ [v]).
Proof.
  intros Hle. unfold deque_append, most_recent.
  rewrite length_app. simpl.
  destruct (decide (maxlen d = 0)) as [Hz|Hnz].
  - destruct (items d) as [|x l]; simpl in *; [|lia].
    rewrite Hz. reflexivity.
  - destruct (decide (length (items d) < maxlen d)) as [Hlt|Hfull]; simpl.
    + replace (length (items d) + 1 - maxlen d) with 0 by lia. reflexivity.
    + replace (length (items d) + 1 - maxlen d) with 1 by lia.
      destruct (items d) as [|x l]; simpl in *; [lia|reflexivity].
Qed.

Lemma deque_append_bounded {A} (d : deque A) v :
  length (items d) ≤ maxlen d →
  length (items (deque_append d v)) ≤ maxlen (deque_append d v).
Proof.
  intros Hle. rewrite deque_append_items, deque_append_maxlen by done.
  apply most_recent_length.
Qed.

Lemma deque_append_last {A} (d : deque A) v :
  maxlen d ≠ 0 → last (items (deque_append d v)) = Some v.
Proof.
  intros Hnz. unfold deque_append.
  repeat case_decide; try done; simpl; apply last_snoc.
Qed.

(** On overflow the oldest item leaves first. *)
Lemma deque_append_full {A} (d : deque A) v :
  maxlen d ≠ 0 → length (items d) = maxlen d →
  items (deque_append d v) = tail (items d) ++ [v].
Proof.
  intros Hnz Hfull. unfold deque_append.
  repeat case_decide; try done; lia.
Qed.

Lemma average_is_mean r : average r = mean_or_zero (items (_values r)).
Proof.
  unfold average, mean_or_zero.
  destruct (items (_values r)); [reflexivity|].
  case_decide; [discriminate|reflexivity].
Qed.

(** The window of a [RollingAverage] after any sequence of calls. *)
Lemma average_window n cs :
  let r := foldl do_average_call (RollingAverage_init n) cs in
  maxlen (_values r) = n
  ∧ items (_values r) = most_recent n (added_since_clear cs).
Proof.
  induction cs as [|c cs IH] using rev_ind; simpl.
  - split; [reflexivity|]. unfold most_recent. reflexivity.
  - rewrite !foldl_snoc. simpl in IH. destruct IH as [Hm Hi].
    unfold added_since_clear in *. rewrite foldl_snoc.
    destruct c as [v|]; simpl.
    + rewrite deque_append_maxlen. split; [done|].
      rewrite deque_append_items by (rewrite Hm, Hi; apply most_recent_length).
      rewrite Hm, Hi. apply most_recent_snoc.
    + split; [done|]. unfold most_recent. reflexivity.
Qed.

(** The state of an [FPSCounter] after any sequence of calls. *)
Lemma counter_window n os :
  let c := foldl do_counter_call (FPSCounter_init n) os in
  maxlen (_values (_rolling c)) = n
  ∧ maxlen (_frame_times c) = n
  ∧ length (items (_frame_times c)) ≤ n
  ∧ _last_time c = (measured_since_reset os).1
  ∧ items (_values (_rolling c)) = most_recent n (measured_since_reset os).2.
Proof.
  induction os as [|o os IH] using rev_ind; simpl.
  - repeat split; try reflexivity. lia.
  - rewrite !foldl_snoc. simpl in IH.
    destruct IH as (Hm & Hf & Hlen & Hlast & Hi).
    unfold measured_since_reset in *. rewrite foldl_snoc.
    destruct o as [now|]; simpl.
    + unfold tick. rewrite Hlast.
      destruct (foldl _ (None, []) os).1 as [t|] eqn:Hprev; simpl.
      * rewrite !deque_append_maxlen.
        repeat split; try done.
        -- rewrite <- Hf at 2. rewrite <- (deque_append_maxlen _ (now - t)%float).
           apply deque_append_bounded. lia.
        -- rewrite deque_append_items
             by (rewrite Hm, Hi; apply most_recent_length).
           rewrite Hm, Hi. apply most_recent_snoc.
      * repeat split; done.
    + repeat split; try done. lia.
Qed.

(** C6: the first [tick()] after a [reset()] returns FPS 0 and latency 0
    and leaves the window empty; every later [tick()], taken at an
    interval [dt] after the previous one, pushes [dt] into the bounded
    window as its newest sample and returns the FPS [1.0 / dt] and the
    latency [dt * 1000]: whenever [dt] is not zero, so that the reciprocal
    exists, these are the values [1/dt] and [dt * 1000]. *)
Theorem tick_reports_last_interval :
  (∀ c now,
      (tick (reset c) now).2 = Ok (0%float, 0%float)
      ∧ items (_frame_times (tick (reset c) now).1) = []
      ∧ count (_rolling (tick (reset c) now).1) = 0
      ∧ _last_time (tick (reset c) now).1 = Some now)
  ∧ (∀ c previous now,
      _last_time c = Some previous →
      maxlen (_frame_times c) ≠ 0 →
      let dt := (now - previous)%float in
      (tick c now).2 = (fps ← truediv 1%float dt; Ok (fps, (dt * 1000)%float))
      ∧ (PrimFloat.eqb dt 0%float = false →
         (tick c now).2 = Ok ((1 / dt)%float, (dt * 1000)%float))
      ∧ _frame_times (tick c now).1 = deque_append (_frame_times c) dt
      ∧ last (items (_frame_times (tick c now).1)) = Some dt
      ∧ _rolling (tick c now).1 = add (_rolling c) (dt * 1000)%float
      ∧ _last_time (tick c now).1 = Some now).
Proof.
  split.
  - intros c now. unfold tick, reset. simpl. done.
  - intros c previous now Hprev Hmax dt.
    unfold tick. rewrite Hprev. simpl. fold dt.
    rewrite (deque_append_last _ dt Hmax). simpl.
    split_and!; try done.
    intros Hdt. unfold truediv. rewrite Hdt. done.
Qed.

Lemma tick_reports_last_interval_witness :
  let c := (tick (FPSCounter_init 30) 1%float).1 in
  (tick (reset c) 2%float).2 = Ok (0%float, 0%float)
  ∧ (tick c 1.25%float).2 = Ok (4%float, 250%float).
Proof.
  intros c. split.
  - apply (proj1 tick_reports_last_interval c 2%float).
  - destruct (proj2 tick_reports_last_interval c 1%float 1.25%float)
      as (_ & Hfps & _); [reflexivity | simpl; lia |].
    apply Hfps. reflexivity.
Defined.

(** C7: after every sequence of calls the window holds at most 30
    samples, namely the most recent of those recorded since the last
    reset, the oldest leaving first on overflow; the rolling average is
    the arithmetic mean of the retained samples (0 when there are none);
    after [reset()] the window is empty and the average is 0. *)
Theorem rolling_window_bounded_fifo :
  (∀ os : list counter_call,
      let c := foldl do_counter_call (FPSCounter_init 30) os in
      count (_rolling c) ≤ 30
      ∧ length (items (_frame_times c)) ≤ 30
      ∧ items (_values (_rolling c))
        = most_recent 30 (measured_since_reset os).2
      ∧ rolling_average_ms c = mean_or_zero (items (_values (_rolling c)))
      ∧ count (_rolling (reset c)) = 0
      ∧ rolling_average_ms (reset c) = 0%float)
  ∧ (∀ cs : list average_call,
      let r := foldl do_average_call (RollingAverage_init 30) cs in
      count r ≤ 30
      ∧ items (_values r) = most_recent 30 (added_since_clear cs)
      ∧ average r = mean_or_zero (items (_values r))
      ∧ (∀ v, count r = 30 →
             items (_values (add r v)) = tail (items (_values r)) ++ [v])
      ∧ count (clear r) = 0
      ∧ average (clear r) = 0%float).
Proof.
  split.
  - intros os c.
    destruct (counter_window 30 os) as (Hm & Hf & Hlen & _ & Hi). fold c in Hm, Hf, Hlen, Hi.
    repeat split; try done.
    + unfold count. rewrite Hi. apply most_recent_length.
    + apply average_is_mean.
  - intros cs r.
    destruct (average_window 30 cs) as (Hm & Hi). fold r in Hm, Hi.
    repeat split; try done.
    + unfold count. rewrite Hi. apply most_recent_length.
    + apply average_is_mean.
    + intros v Hfull. unfold add. simpl.
      apply deque_append_full; [rewrite Hm; lia|].
      rewrite Hm. exact Hfull.
Qed.

Lemma rolling_window_bounded_fifo_witness :
  let r := foldl do_average_call (RollingAverage_init 30)
             (Add <$> replicate 30 1%float) in
  count r = 30
  ∧ items (_values (add r 2%float)) = replicate 29 1%float ++ [2%float].
Proof.
  intros r.
  destruct (proj2 rolling_window_bounded_fifo (Add <$> replicate 30 1%float))
    as (_ & _ & _ & Hfull & _).
  subst r. split; [vm_compute; reflexivity|].
  rewrite (Hfull 2%float); [|vm_compute; reflexivity].
  vm_compute. reflexivity.
Defined.

End rolling_metrics.

(** ** The unified result (core/models.py) *)

Section unified_result.
Import models.

(** C5: whatever arguments are supplied, also with detections,
    landmarks or metadata omitted, the record binds [detections] and
    [landmarks] to lists: the ones given, or the empty list. *)
Theorem schema_always_has_lists :
  ∀ pipeline timestamp_s detections landmarks metadata,
    unified_results_schema pipeline timestamp_s detections landmarks metadata
      !! "detections" = Some (VList (default [] detections))
    ∧ unified_results_schema pipeline timestamp_s detections landmarks metadata
      !! "landmarks" = Some (VList (default [] landmarks))
    ∧ dom (unified_results_schema pipeline timestamp_s detections landmarks
             metadata)
      = {["pipeline"; "timestamp_s"; "detections"; "landmarks"; "metadata"]}.
Proof.
  intros. unfold unified_results_schema. split_and!.
  - by simplify_map_eq.
  - by simplify_map_eq.
  - rewrite !dom_insert_L, dom_empty_L. set_solver.
Qed.

Example schema_defaults :
  unified_results_schema "pose" 0%float None None None !! "landmarks"
  = Some (VList []).
Proof. reflexivity. Qed.

End unified_result.


(** ** The plugins before initialisation *)

Section plugins_uninitialized.
Import cv2 mediapipe base plugin_util.
Context `{Runtime}.

Lemma not_initialized_answer {P} `{MediaPipePluginBase P} (self : P) :
  (∀ frame timestamp_s,
      process self frame timestamp_s
      = (self, Ok (frame, not_initialized (plugin_id self) timestamp_s))) →
  answers_not_initialized self.
Proof.
  intros Hprocess frame timestamp_s.
  exists (not_initialized (plugin_id self) timestamp_s).
  split; [apply Hprocess|].
  unfold not_initialized, models.unified_results_schema. simpl.
  split_and!; try by simplify_map_eq.
  all: rewrite !dom_insert_L, dom_empty_L; set_solver.
Qed.

(** C10: each built-in plugin, asked to process before [init] (its
    session handle is [None], as after construction or [close]), does not
    raise: it returns the input frame unchanged with a unified-schema
    result whose detections and landmarks are empty and whose metadata is
    ["error": "not initialized"]. *)
Theorem process_before_init_reports_not_initialized :
  answers_not_initialized face_detector.FaceDetectorPlugin_init
  ∧ answers_not_initialized object_detector.ObjectDetectorPlugin_init
  ∧ answers_not_initialized pose.PosePlugin_init
  ∧ answers_not_initialized facemesh.FaceMeshPlugin_init
  ∧ answers_not_initialized gesture_recognizer.GestureRecognizerPlugin_init
  ∧ (∀ self : face_detector.FaceDetectorPlugin,
        answers_not_initialized (close self))
  ∧ (∀ self : object_detector.ObjectDetectorPlugin,
        answers_not_initialized (close self))
  ∧ (∀ self : pose.PosePlugin, answers_not_initialized (close self))
  ∧ (∀ self : facemesh.FaceMeshPlugin, answers_not_initialized (close self))
  ∧ (∀ self : gesture_recognizer.GestureRecognizerPlugin,
        answers_not_initialized (close self)).
Proof.
  split_and!; intros; apply not_initialized_answer; reflexivity.
Qed.

End plugins_uninitialized.

(** ** The capture source (core/capture.py) *)

Section capture_source.
Import cv2 capture.

(** Unfolds the capture calls down to the host's handle set. *)
Ltac capture_cases :=
  unfold handles_consistent, open_camera, open_file, close, read, cv2.read,
    held, release, VideoCapture_init, isOpened in *;
  simpl in *;
  repeat (case_decide || case_match); simpl in *; simplify_eq; simpl in *.

Lemma close_consistent h s :
  handles_consistent (h, s) → handles_consistent (close h s).
Proof.
  destruct s as [[[hd op str]|] path idx]; intros (Hheld & Hlt & Hpath).
  all: capture_cases; split_and!; try done; set_solver.
Qed.

Lemma open_camera_consistent h s index :
  handles_consistent (h, s) →
  handles_consistent (open_camera h s index).1.
Proof.
  destruct s as [[[hd op str]|] path idx]; intros (Hheld & Hlt & Hpath).
  all: capture_cases; split_and!; try done.
  all: try (intros x; set_solver by lia).
  all: set_solver.
Qed.

Lemma open_file_consistent h s path :
  handles_consistent (h, s) →
  handles_consistent (open_file h s path).1.
Proof.
  destruct s as [[[hd op str]|] p idx]; intros (Hheld & Hlt & Hpath).
  all: capture_cases; split_and!; try done.
  all: try (intros x; set_solver by lia).
  all: set_solver.
Qed.

Lemma read_consistent h s :
  handles_consistent (h, s) → handles_consistent (h, (read s).2).
Proof.
  destruct s as [[[hd op str]|] p idx]; intros (Hheld & Hlt & Hpath).
  all: capture_cases; split_and!; try done.
Qed.

Lemma open_camera_media h s index :
  media (open_camera h s index).1.1 = media h.
Proof.
  destruct s as [[[hd op str]|] p idx].
  all: unfold open_camera, close, release, VideoCapture_init; simpl.
  all: case_decide; simpl.
  all: match goal with
       | |- context [match media ?a ?t with _ => _ end] => destruct (media a t)
       end.
  all: reflexivity.
Qed.

(** [open_file] leaves the source on the path, with a capture object
    that is open exactly when the host can open the file. *)
Lemma open_file_mode h s path :
  let r := open_file h s path in
  _source_path r.1.2 = Some path
  ∧ ∃ vc, _cap r.1.2 = Some vc
          ∧ opened vc = bool_decide (is_Some (media h (Filename path)))
          ∧ r.2 = opened vc.
Proof.
  destruct s as [[[hd op str]|] p idx].
  all: unfold open_file, close, release, VideoCapture_init, isOpened; simpl.
  all: destruct (media h (Filename path)) eqn:Hm; simpl.
  all: split; [reflexivity|]; eexists; split_and!; try reflexivity; simpl.
  all: first [ by rewrite bool_decide_eq_true_2 by eauto
             | by rewrite bool_decide_eq_false_2 by (by intros [? ?]) ].
Qed.

Lemma do_calls_consistent st cs :
  handles_consistent st → handles_consistent (do_calls st cs).
Proof.
  revert st. induction cs as [|c cs IH]; intros [h s] Hc; [done|].
  simpl. apply IH. destruct c; simpl.
  - by apply open_camera_consistent.
  - by apply open_file_consistent.
  - by apply close_consistent.
  - by apply read_consistent.
Qed.

Lemma boot_consistent platform media :
  handles_consistent (Host_boot platform media, VideoCaptureSource_init).
Proof. split_and!; simpl; set_solver. Qed.

Lemma held_size s : size (held s) ≤ 1.
Proof.
  unfold held. destruct (_cap s) as [vc|]; [destruct (opened vc)|].
  - by rewrite size_singleton.
  - by rewrite size_empty; lia.
  - by rewrite size_empty; lia.
Qed.

(** C8: after every sequence of open_camera / open_file / close / read
    calls on a new source, the backing handles open on the host are
    exactly the one the source holds, so at most one; each open first
    closes the existing source, whose handle is released before the new
    one is opened; [close()] on a closed source changes nothing; and
    opening camera 0 and then the file "clip.mp4" leaves the source in
    file mode on that path, with the camera's handle released. *)
Theorem at_most_one_backing_handle :
  (∀ platform media cs,
      let st := do_calls (Host_boot platform media, VideoCaptureSource_init) cs in
      open_handles st.1 = held st.2
      ∧ size (open_handles st.1) ≤ 1
      ∧ (∀ index x, x ∈ held st.2 →
            x ∉ open_handles (open_camera st.1 st.2 index).1.1)
      ∧ (∀ path x, x ∈ held st.2 →
            x ∉ open_handles (open_file st.1 st.2 path).1.1)
      ∧ (∀ index, (open_camera st.1 st.2 index).1
                  = (open_camera (close st.1 st.2).1 (close st.1 st.2).2 index).1)
      ∧ (∀ path, (open_file st.1 st.2 path).1
                 = (open_file (close st.1 st.2).1 (close st.1 st.2).2 path).1)
      ∧ (_cap st.2 = None → close st.1 st.2 = st))
  ∧ (∀ platform media,
      let boot := (Host_boot platform media, VideoCaptureSource_init) in
      let camera := do_calls boot [Open_camera 0] in
      let file := do_calls boot [Open_camera 0; Open_file "clip.mp4"] in
      source_path file.2 = Some "clip.mp4"
      ∧ (∃ vc, _cap file.2 = Some vc
               ∧ opened vc = bool_decide (is_Some (media (Filename "clip.mp4"))))
      ∧ (∀ x, x ∈ held camera.2 → x ∉ open_handles file.1)
      ∧ size (open_handles file.1) ≤ 1).
Proof.
  split.
  - intros platform media cs st.
    pose proof (do_calls_consistent _ cs (boot_consistent platform media)) as Hc.
    fold st in Hc. destruct st as [h s]. simpl.
    pose proof Hc as (Hheld & Hlt & Hpath). simpl in *.
    split_and!.
    + done.
    + rewrite Hheld. apply held_size.
    + intros index x Hx. rewrite <- Hheld in Hx. apply Hlt in Hx.
      destruct s as [[[hd op str]|] p idx].
      all: capture_cases; set_solver by lia.
    + intros path x Hx. rewrite <- Hheld in Hx. apply Hlt in Hx.
      destruct s as [[[hd op str]|] p idx].
      all: capture_cases; set_solver by lia.
    + intros index. destruct s as [[[hd op str]|] p idx]; reflexivity.
    + intros path. destruct s as [[[hd op str]|] p idx]; reflexivity.
    + intros Hcap. destruct s as [cap p idx]. simpl in *. subst cap.
      unfold close. simpl. rewrite (Hpath eq_refl). reflexivity.
  - intros platform media boot camera file.
    pose proof (do_calls_consistent _ [Open_camera 0; Open_file "clip.mp4"]
                  (boot_consistent platform media)) as (Hheld & _ & _).
    pose proof (do_calls_consistent _ [Open_camera 0]
                  (boot_consistent platform media)) as (_ & Hlt & _).
    fold boot in Hheld, Hlt. fold file in Hheld. fold camera in Hlt.
    split_and!.
    + subst file boot. unfold do_calls. simpl.
      apply open_file_mode.
    + subst file boot. unfold do_calls. simpl.
      match goal with
      | |- context [open_file ?h ?s ?p] =>
          destruct (open_file_mode h s p) as (_ & vc & Hcap & Hopen & _);
          pose proof (open_camera_media (Host_boot platform media)
                        VideoCaptureSource_init 0) as Hmedia
      end.
      exists vc. split; [exact Hcap|]. rewrite Hopen, Hmedia. reflexivity.
    + intros x Hx. subst file camera boot. unfold do_calls in *. simpl in *.
      capture_cases; set_solver by lia.
    + rewrite Hheld. apply held_size.
Qed.

Lemma at_most_one_backing_handle_witness :
  let st := do_calls (Host_boot "linux" demo.media, VideoCaptureSource_init)
              [Open_camera 0; Read; Open_file "clip.mp4"; Close] in
  size (open_handles st.1) ≤ 1
  ∧ close st.1 st.2 = st
  ∧ (∀ x, x ∈ held st.2 → x ∉ open_handles (open_camera st.1 st.2 0).1.1).
Proof.
  intros st.
  destruct (proj1 at_most_one_backing_handle "linux" demo.media
              [Open_camera 0; Read; Open_file "clip.mp4"; Close])
    as (_ & Hsize & Hcamera & _ & _ & _ & Hclosed).
  split_and!.
  - exact Hsize.
  - apply Hclosed. reflexivity.
  - intros x. apply Hcamera.
Defined.

End capture_source.

(** ** The plugin registry (plugins/__init__.py) *)

Section registry.
Import plugins.

Example discover_without_hands :
  match discover_plugins demo.hands_absent with
  | Ok ps => Some (id_of <$> ps)
  | Raise _ => None
  end
  = Some ["pose"; "facemesh"; "object_detector"; "face_detector";
          "gesture_recognizer"].
Proof. vm_compute. reflexivity. Qed.

Example extra_modules_of_listing : extra_modules demo.hands_absent = [].
Proof. vm_compute. reflexivity. Qed.


Lemma keep_prefix acc p : acc.1 `prefix_of` (keep acc p).1.
Proof.
  destruct p as [p|]; simpl; [|done].
  case_decide; [|done]. simpl. by apply prefix_app_r.
Qed.











End registry.

(** ** The pipeline runner (core/runner.py) *)

Section pipeline_runner.
Import cv2 capture utils base runner.

Example flaky_run :
  match _run_loop demo.quarter_seconds (demo.started (Some (demo.mkFlaky 0)) 7) with
  | Some (self, evs) =>
      (length (signals evs), drop 4 (signals evs), length (outcomes evs),
       _running self, length (pending (_capture self)))
  | None => (0, [], 0, true, 0)
  end
  = (6, [error_occurred "boom"; stopped], 5, false, 2).
Proof. vm_compute. reflexivity. Qed.

Example passthrough_run :
  match _run_loop demo.quarter_seconds (demo.started (@None demo.Flaky) 2) with
  | Some (self, evs) => signals evs
  | None => []
  end
  = [frame_processed (demo.frame 0) ∅ 0%float 0%float 0%float;
     frame_processed (demo.frame 1) ∅ 0%float 0%float 0%float;
     stopped].
Proof. vm_compute. reflexivity. Qed.

Example stopped_run :
  match _run_loop demo.stop_after_three (demo.started (@None demo.Flaky) 9) with
  | Some (self, evs) => (length (signals evs), _running self)
  | None => (0, true)
  end
  = (4, false).
Proof. vm_compute. reflexivity. Qed.

Section any_plugin.
Context {P : Type} `{MediaPipePluginBase P}.

Lemma read_opened s :
  is_opened s = true →
  match capture.read s with
  | ((ok, frame), s') =>
      (pending s = (ok, frame) :: pending s')
      ∨ (ok = false ∧ frame = None ∧ s' = s)
  end.
Proof.
  unfold is_opened, capture.read, cv2.read, isOpened, pending.
  destruct s as [[[hd op str]|] path idx]; simpl; [|done].
  intros ->. destruct str as [|[ok frame] str]; simpl.
  - by right.
  - by left.
Qed.

(** What one pass through the loop does. *)
Lemma iteration_spec env (w : Worker) :
  match iteration env w with
  | (evs, Continue w') =>
      plugged (self_ w') = plugged (self_ w)
      ∧ ∃ f s, pass_events (plugged (self_ w)) f s evs
               ∧ pending (_capture (self_ w))
                 = (true, Some f) :: pending (_capture (self_ w'))
  | (evs, Break w') =>
      end_events (plugged (self_ w)) (evs ++ [Emit stopped])
      ∧ frames_read evs = []
      ∧ signals evs = []
  | (evs, Return w') =>
      end_events (plugged (self_ w)) evs
      ∧ _running (self_ w') = false
      ∧ (∃ f, frames_read evs = [f]
              ∧ pending (_capture (self_ w))
                = (true, Some f) :: pending (_capture (self_ w')))
      ∧ ∃ message, signals evs = [error_occurred message; stopped]
  end.
Proof.
  unfold iteration.
  set (self := if stop_called env (tests w) then stop (self_ w) else self_ w).
  assert (Hplug : _plugin self = _plugin (self_ w))
    by (subst self; by destruct (stop_called env (tests w))).
  assert (Hcap : _capture self = _capture (self_ w))
    by (subst self; by destruct (stop_called env (tests w))).
  unfold plugged. rewrite <- Hplug, <- Hcap. clearbody self.
  destruct (_running self && is_opened (_capture self)) eqn:Hcond; simpl.
  2: { split_and!; [constructor|done|done]. }
  apply andb_prop in Hcond as [_ Hopen].
  pose proof (read_opened _ Hopen) as Hread.
  destruct (capture.read (_capture self)) as [[ok frame] cap].
  destruct ok; [destruct frame as [f|]|]; simpl.
  2,3: split_and!; [constructor; auto|done|done].
  destruct Hread as [Hread|(? & _)]; [|done].
  destruct (_plugin self) as [plugin|] eqn:Hp; simpl.
  - destruct (process plugin f (perf_counter env (clock w)))
      as [plugin' [[annotated results]|e]] eqn:Hprocess; simpl.
    + destruct (tick (_fps_counter self) (perf_counter env (S (clock w))))
        as [counter [[fps latency_ms]|e]] eqn:Htick; simpl.
      * split; [done|]. eexists _, _. split; [|exact Hread].
        try rewrite bool_decide_eq_true_2 by eauto.
        econstructor. exact Hprocess.
      * try rewrite bool_decide_eq_true_2 by eauto.
        split_and!; [econstructor; exact Hprocess|done|by exists f|by eexists].
    + try rewrite bool_decide_eq_true_2 by eauto.
      split_and!; [econstructor; exact Hprocess|done|by exists f|by eexists].
  - split; [done|]. eexists _, _. split; [|exact Hread].
    try rewrite bool_decide_eq_false_2 by (by intros [? ?]).
    constructor.
Qed.

Lemma signals_app evs1 evs2 : signals (evs1 ++ evs2) = signals evs1 ++ signals evs2.
Proof. apply omap_app. Qed.

Lemma outcomes_app evs1 evs2 :
  outcomes (evs1 ++ evs2) = outcomes evs1 ++ outcomes evs2.
Proof. apply omap_app. Qed.

Lemma frames_read_app evs1 evs2 :
  frames_read (evs1 ++ evs2) = frames_read evs1 ++ frames_read evs2.
Proof. apply omap_app. Qed.

Lemma failed_app evs1 evs2 : failed (evs1 ++ evs2) = failed evs1 || failed evs2.
Proof. unfold failed. by rewrite signals_app, existsb_app. Qed.

Lemma pass_events_inv b f s evs :
  pass_events (P := P) b f s evs →
  frames_read evs = [f]
  ∧ signals evs = [s]
  ∧ emitted_for (P := P) b f s
  ∧ failed evs = false
  ∧ (if b then ∃ o, outcomes evs = [Ok o] ∧ carries o s
     else outcomes evs = []).
Proof.
  intros [f0|f0 ts p p' annotated results fps latency_ms rolling_ms Hp].
  - by split_and!.
  - split_and!; try done.
    + by eexists p, p', ts, _, _, _, _, _.
    + exists (annotated, results). split; [done|]. by eexists _, _, _.
Qed.

Lemma end_events_inv b evs :
  end_events (P := P) b evs →
  (signals evs = [stopped] ∧ outcomes evs = [] ∧ frames_read evs = []
   ∧ failed evs = false)
  ∨ (b = true ∧ failed evs = true
     ∧ ∃ e, signals evs = [error_occurred (str_exn e); stopped]
            ∧ (outcomes evs = [Raise e] ∨ ∃ o, outcomes evs = [Ok o])).
Proof.
  intros [b0|b0 ok frame Hread|f ts p p' e Hp|f ts p p' annotated results e Hp].
  - by left.
  - left. split_and!; try done.
    destruct Hread as [-> | ->]; [done|by destruct ok].
  - right. split_and!; try done. exists e. split; [done|by left].
  - right. split_and!; try done. exists e. split; [done|right; by eexists].
Qed.

Lemma run_events_unplugged evs :
  run_events (P := P) false evs → outcomes evs = [].
Proof.
  induction 1 as [evs Hend|f s evs rest Hpass _ IH].
  - by destruct (end_events_inv _ _ Hend) as [(_ & ? & _)|(? & _)].
  - destruct (pass_events_inv _ _ _ _ Hpass) as (_ & _ & _ & _ & Ho).
    by rewrite outcomes_app, IH, Ho.
Qed.

(** A run in which a plugin call raises: the calls before it each have
    their frame-ready signal, the raise is the last call, and the error
    and stopped signals follow. *)
Lemma run_events_failure b evs :
  run_events (P := P) b evs →
  ∀ oks e rest,
    outcomes evs = (Ok <$> oks) ++ Raise e :: rest →
    rest = []
    ∧ ∃ sigs, signals evs = sigs ++ [error_occurred (str_exn e); stopped]
              ∧ Forall2 carries oks sigs.
Proof.
  destruct b.
  2: { intros Hrun oks e rest Ho. rewrite (run_events_unplugged _ Hrun) in Ho.
       by destruct oks. }
  induction 1 as [evs Hend|f s evs rest' Hpass _ IH]; intros oks e rest Ho.
  - destruct (end_events_inv _ _ Hend)
      as [(_ & Hnone & _)|(_ & _ & e0 & Hsig & [Hone|[o Hone]])];
      rewrite ?Hnone, ?Hone in Ho.
    + by destruct oks.
    + destruct oks as [|o oks]; simplify_eq/=.
      split; [done|]. exists []. by split; [|constructor].
    + destruct oks as [|o' oks]; simplify_eq/=. by destruct oks.
  - destruct (pass_events_inv _ _ _ _ Hpass) as (_ & Hs & _ & _ & o & Ho1 & Hcar).
    rewrite outcomes_app, Ho1 in Ho. rewrite signals_app, Hs.
    destruct oks as [|o' oks]; simplify_eq/=.
    destruct (IH oks e rest) as (-> & sigs & -> & Hall); [done|].
    split; [done|]. exists (s :: sigs). by split; [|constructor].
Qed.

(** A run without an error signal: one frame-ready signal for each frame
    read, in the order of the reads, then one stopped signal. *)
Lemma run_events_clean b evs :
  run_events (P := P) b evs →
  failed evs = false →
  ∃ outs, signals evs = outs ++ [stopped]
          ∧ Forall2 (emitted_for (P := P) b) (frames_read evs) outs.
Proof.
  induction 1 as [evs Hend|f s evs rest Hpass _ IH]; intros Hclean.
  - destruct (end_events_inv _ _ Hend) as [(Hs & _ & Hf & _)|(_ & Hfail & _)];
      [|congruence].
    exists []. rewrite Hs, Hf. by split; [|constructor].
  - destruct (pass_events_inv _ _ _ _ Hpass) as (Hf & Hs & Hem & _ & _).
    rewrite failed_app in Hclean.
    apply orb_false_elim in Hclean as [_ Hclean].
    destruct (IH Hclean) as (outs & Hsig & Hall).
    rewrite signals_app, frames_read_app, Hf, Hs, Hsig. exists (s :: outs).
    by split; [|constructor].
Qed.

(** What a run that returns has done. *)
Lemma loop_spec fuel env (w w' : Worker) evs :
  loop fuel env w = Some (w', evs) →
  run_events (P := P) (plugged (self_ w)) evs
  ∧ ((λ f, (true, Some f)) <$> frames_read evs)
    `prefix_of` pending (_capture (self_ w))
  ∧ (failed evs = true → _running (self_ w') = false).
Proof.
  revert w w' evs. induction fuel as [|fuel IH]; intros w w' evs; [done|].
  simpl. pose proof (iteration_spec env w) as Hit.
  destruct (iteration env w) as [evs0 [w1|w1|w1]].
  - destruct Hit as (Hplug & f & s & Hpass & Hpend).
    destruct (loop fuel env w1) as [[w2 rest]|] eqn:Hrest; [|done].
    simpl. intros [= <- <-].
    destruct (IH _ _ _ Hrest) as (Hrun & Hpre & Hfail).
    destruct (pass_events_inv _ _ _ _ Hpass) as (Hf & Hs & _ & Hok & _).
    split_and!.
    + eapply run_pass; [done|]. by rewrite <- Hplug.
    + rewrite frames_read_app, Hf, Hpend. simpl. by apply prefix_cons.
    + by rewrite failed_app, Hok.
  - destruct Hit as (Hend & Hf & Hs). intros [= <- <-].
    split_and!.
    + by apply run_end.
    + rewrite frames_read_app, Hf. simpl. apply prefix_nil.
    + unfold failed. by rewrite signals_app, Hs.
  - destruct Hit as (Hend & Hrun & (f & Hf & Hpend) & _). intros [= <- <-].
    split_and!.
    + by apply run_end.
    + rewrite Hf, Hpend. simpl. apply prefix_cons, prefix_nil.
    + done.
Qed.

(** One pass more than the source has items is enough. *)
Lemma loop_total fuel env (w : Worker) :
  length (pending (_capture (self_ w))) < fuel →
  is_Some (loop fuel env w).
Proof.
  revert w. induction fuel as [|fuel IH]; intros w Hfuel; [lia|].
  simpl. pose proof (iteration_spec env w) as Hit.
  destruct (iteration env w) as [evs0 [w1|w1|w1]]; [|done..].
  destruct Hit as (_ & f & s & _ & Hpend).
  destruct (IH w1) as [[w2 rest] ->]; [|done].
  rewrite Hpend in Hfuel. simpl in Hfuel. lia.
Qed.

Lemma _run_loop_total env (self : FrameProcessorRunner P) :
  is_Some (_run_loop env self).
Proof.
  unfold _run_loop.
  match goal with
  | |- context [loop ?fuel env ?w] =>
      destruct (loop_total fuel env w) as [[w' evs] ->]; [simpl; lia|done]
  end.
Qed.

Lemma _run_loop_spec env (self self' : FrameProcessorRunner P) evs :
  _run_loop env self = Some (self', evs) →
  run_events (P := P) (plugged self) evs
  ∧ ((λ f, (true, Some f)) <$> frames_read evs)
    `prefix_of` pending (_capture self)
  ∧ (failed evs = true → _running self' = false).
Proof.
  unfold _run_loop.
  match goal with
  | |- context [loop ?fuel env ?w] =>
      destruct (loop fuel env w) as [[w' evs']|] eqn:Hloop; [|done]
  end.
  simpl. intros [= <- <-]. by apply loop_spec in Hloop.
Qed.

(** One pass through the loop, as the events of a pass over the frame it
    read. *)
Lemma iteration_trace env (w : Worker) :
  match iteration env w with
  | (evs, Continue w') =>
      ∃ f, frames_read evs = [f]
           ∧ failed evs = false
           ∧ ∀ rest,
               frame_passes env (_plugin (self_ w)) (_fps_counter (self_ w))
                 (clock w) (f :: rest)
               = evs ++ frame_passes env (_plugin (self_ w'))
                          (_fps_counter (self_ w')) (clock w') rest
  | (evs, Break w') => last_read evs
  | (evs, Return w') =>
      ∃ f, frames_read evs = [f]
           ∧ failed evs = true
           ∧ ∀ rest,
               frame_passes env (_plugin (self_ w)) (_fps_counter (self_ w))
                 (clock w) (f :: rest)
               = evs
  end.
Proof.
  unfold iteration.
  set (self := if stop_called env (tests w) then stop (self_ w) else self_ w).
  assert (Hplug : _plugin self = _plugin (self_ w))
    by (subst self; by destruct (stop_called env (tests w))).
  assert (Hcount : _fps_counter self = _fps_counter (self_ w))
    by (subst self; by destruct (stop_called env (tests w))).
  rewrite <- Hplug, <- Hcount. clearbody self.
  destruct (_running self && is_opened (_capture self)); simpl; [|by left].
  destruct (capture.read (_capture self)) as [[ok frame] cap].
  destruct ok; [destruct frame as [f|]|]; simpl.
  2,3: right; eexists _, _; split; [|done]; auto.
  destruct (_plugin self) as [plugin|] eqn:Hp; simpl.
  - destruct (process plugin f (perf_counter env (clock w)))
      as [plugin' [[annotated results]|e]] eqn:Hprocess; simpl.
    + destruct (tick (_fps_counter self) (perf_counter env (S (clock w))))
        as [counter [[fps latency_ms]|e]] eqn:Htick; simpl.
      * exists f. split_and!; [done..|]. intros rest.
        simpl. rewrite Hprocess. simpl. by rewrite ?Htick.
      * exists f. split_and!; [done..|]. intros rest.
        simpl. rewrite Hprocess. simpl. by rewrite ?Htick.
    + exists f. split_and!; [done..|]. intros rest.
      simpl. by rewrite Hprocess.
  - exists f. by split_and!.
Qed.

(** A run that returns, as the passes over the frames it read: after them
    comes nothing when the run failed, and otherwise at most a failed read
    and then the stopped signal. *)
Lemma loop_trace fuel env (w w' : Worker) evs :
  loop fuel env w = Some (w', evs) →
  ∃ last,
    evs = frame_passes env (_plugin (self_ w)) (_fps_counter (self_ w))
            (clock w) (frames_read evs) ++ last
    ∧ if failed evs then last = []
      else ∃ evs', last_read evs' ∧ last = evs' ++ [Emit stopped].
Proof.
  revert w w' evs. induction fuel as [|fuel IH]; intros w w' evs; [done|].
  simpl. pose proof (iteration_trace env w) as Hit.
  destruct (iteration env w) as [evs0 [w1|w1|w1]].
  - destruct Hit as (f & Hf & Hok & Hpass).
    destruct (loop fuel env w1) as [[w2 rest]|] eqn:Hrest; [|done].
    simpl. intros [= <- <-].
    destruct (IH _ _ _ Hrest) as (last & Hrun & Hlast).
    exists last. rewrite frames_read_app, Hf, failed_app, Hok, orb_false_l.
    split; [|exact Hlast].
    change ([f] ++ frames_read rest) with (f :: frames_read rest).
    rewrite Hpass, <- app_assoc. by rewrite <- Hrun.
  - intros [= <- <-]. exists (evs0 ++ [Emit stopped]).
    assert (frames_read evs0 = [] ∧ failed evs0 = false) as [Hf Hok].
    { destruct Hit as [->|(ok & frame & Hread & ->)]; [done|].
      split; [|done]. destruct Hread as [-> | ->]; [done|by destruct ok]. }
    rewrite frames_read_app, Hf, failed_app, Hok, orb_false_l.
    split; [done|]. by exists evs0.
  - destruct Hit as (f & Hf & Hfail & Hpass). intros [= <- <-].
    exists []. rewrite Hf, Hfail, app_nil_r. by rewrite Hpass.
Qed.

Lemma _run_loop_trace env (self self' : FrameProcessorRunner P) evs :
  _run_loop env self = Some (self', evs) →
  ∃ last,
    evs = frame_passes env (_plugin self) (reset (_fps_counter self)) 0
            (frames_read evs) ++ last
    ∧ if failed evs then last = []
      else ∃ evs', last_read evs' ∧ last = evs' ++ [Emit stopped].
Proof.
  unfold _run_loop.
  match goal with
  | |- context [loop ?fuel env ?w] =>
      destruct (loop fuel env w) as [[w' evs']|] eqn:Hloop; [|done]
  end.
  simpl. intros [= <- <-]. by apply loop_trace in Hloop.
Qed.

(** C1: a run always returns; when a call of the plugin's [process]
    raises after the calls [oks] returned, the run has emitted one
    frame-ready signal for each of those calls, in order, then one error
    signal with the text of the exception, then one stopped signal and
    nothing more; the plugin is not called again ([rest] is empty) and
    the running flag is false. *)
Theorem plugin_failure_ends_run env (self : FrameProcessorRunner P) :
  is_Some (_run_loop env self)
  ∧ ∀ self' evs oks e rest,
      _run_loop env self = Some (self', evs) →
      outcomes evs = (Ok <$> oks) ++ Raise e :: rest →
      rest = []
      ∧ (∃ sigs, signals evs = sigs ++ [error_occurred (str_exn e); stopped]
                 ∧ length sigs = length oks
                 ∧ Forall2 carries oks sigs)
      ∧ _running self' = false.
Proof.
  split; [apply _run_loop_total|].
  intros self' evs oks e rest Hrun Ho.
  destruct (_run_loop_spec _ _ _ _ Hrun) as (Hev & _ & Hfail).
  destruct (run_events_failure _ _ Hev _ _ _ Ho) as (-> & sigs & Hsig & Hall).
  split_and!; [done| |].
  - exists sigs. split_and!; try done. symmetry. by eapply Forall2_length.
  - apply Hfail. unfold failed. rewrite Hsig, existsb_app. simpl.
    by rewrite orb_true_r.
Qed.

(** C2: a run always returns; when it reports no error, its events are
    exactly the passes over the frames it read, one pass for each frame in
    the order the source delivered them, then at most one failed read,
    then one stopped signal.  With a plugin each pass emits what the call
    of [process] on its frame returned, from the plugin as the pass before
    left it and with the metrics of the counter reset at the start of the
    run; without a plugin it emits the raw frame.  So the signals are one
    frame-ready signal for each frame read, in the order of the reads,
    followed by exactly one stopped signal. *)
Theorem frames_emitted_in_order env (self : FrameProcessorRunner P) :
  is_Some (_run_loop env self)
  ∧ ∀ self' evs,
      _run_loop env self = Some (self', evs) →
      failed evs = false →
      let passes :=
        frame_passes env (_plugin self) (reset (_fps_counter self)) 0
          (frames_read evs) in
      ((λ f, (true, Some f)) <$> frames_read evs)
        `prefix_of` pending (_capture self)
      ∧ (∃ last, last_read last ∧ evs = passes ++ last ++ [Emit stopped])
      ∧ signals evs = signals passes ++ [stopped]
      ∧ length (signals passes) = length (frames_read evs)
      ∧ Forall2 (emitted_for (P := P) (plugged self)) (frames_read evs)
          (signals passes).
Proof.
  split; [apply _run_loop_total|].
  intros self' evs Hrun Hclean passes.
  destruct (_run_loop_spec _ _ _ _ Hrun) as (Hev & Hpre & _).
  destruct (run_events_clean _ _ Hev Hclean) as (outs & Hsig & Hall).
  destruct (_run_loop_trace _ _ _ _ Hrun) as (last & Htrace & Hlast).
  rewrite Hclean in Hlast. destruct Hlast as (evs' & Hread & ->).
  fold passes in Htrace. clearbody passes.
  assert (signals evs = signals passes ++ [stopped]) as Hpasses.
  { rewrite Htrace at 1. rewrite !signals_app.
    by destruct Hread as [->|(ok & frame & _ & ->)]. }
  assert (outs = signals passes) as <-.
  { rewrite Hsig in Hpasses. by apply app_inj_tail in Hpasses as [? _]. }
  split_and!; try done.
  - by exists evs'.
  - symmetry. by eapply Forall2_length.
Qed.

(** C4, as the code has it: a pass in pass-through mode that reads a
    frame emits that frame with the empty dictionary, which has no keys,
    and zero timing, and continues the loop with the metrics untouched. *)
Theorem passthrough_emits_raw_frame env (w : Worker) f cap :
  _plugin (self_ w) = None →
  stop_called env (tests w) = false →
  _running (self_ w) = true →
  is_opened (_capture (self_ w)) = true →
  capture.read (_capture (self_ w)) = ((true, Some f), cap) →
  iteration env w
  = ([Read true (Some f);
      Emit (frame_processed f ∅ 0%float 0%float 0%float)],
     Continue (mkWorker
                 (mkRunner cap None true (_thread (self_ w))
                           (_fps_counter (self_ w)))
                 (S (clock w)) (S (tests w))))
  ∧ dom (∅ : gmap string PyVal) = ∅.
Proof.
  intros Hplugin Hstop Hrun Hopen Hread. split; [|apply dom_empty_L].
  unfold iteration. rewrite Hstop, Hrun, Hopen, Hread. simpl.
  rewrite Hplugin. reflexivity.
Qed.

Lemma reset_forgets c1 c2 :
  maxlen (_frame_times c1) = maxlen (_frame_times c2) →
  maxlen (_values (_rolling c1)) = maxlen (_values (_rolling c2)) →
  reset c1 = reset c2.
Proof.
  unfold reset, clear, deque_clear. by intros -> ->.
Qed.

(** The first signal of passes that begin with a reset counter carries
    no timing. *)
Lemma frame_passes_after_reset env plugin c clock frames
    frame results fps latency_ms rolling_ms rest :
  signals (frame_passes (P := P) env plugin (reset c) clock frames)
  = frame_processed frame results fps latency_ms rolling_ms :: rest →
  fps = 0%float ∧ latency_ms = 0%float ∧ rolling_ms = 0%float.
Proof.
  destruct frames as [|f frames]; [done|]. simpl.
  destruct plugin as [plugin|]; simpl.
  - destruct (process plugin f (perf_counter env clock))
      as [plugin' [[annotated results']|e]]; simpl; [|done].
    unfold tick, reset. simpl. by intros [= <- <- <- <- <-].
  - by intros [= <- <- <- <- <-].
Qed.

(** C9: [start()] on a running runner changes nothing and starts no
    worker; [stop()] on an idle runner changes nothing; a [start()] on an
    idle runner sets the flag and starts one worker.  The run of a worker
    always returns and begins by resetting the metrics: its events are the
    passes over the frames it read from the reset counter, so the first
    frame-ready signal carries FPS 0, latency 0 and rolling average 0; and
    the run, with the counter it leaves behind, is the same whatever the
    counter held before. *)
Theorem start_stop_idempotent :
  (∀ self : FrameProcessorRunner P,
      _running self = true → start self = (self, []))
  ∧ (∀ self : FrameProcessorRunner P,
      _running self = false → stop self = self)
  ∧ (∀ self : FrameProcessorRunner P,
      _running self = false →
      ∃ thread, (start self).2 = [thread]
                ∧ _running (start self).1 = true
                ∧ _fps_counter (start self).1 = _fps_counter self)
  ∧ (∀ env (self : FrameProcessorRunner P),
      ∃ self' evs,
        _run_loop env self = Some (self', evs)
        ∧ _run_loop env (with_counter self (reset (_fps_counter self)))
          = Some (self', evs)
        ∧ (∃ last,
              evs = frame_passes env (_plugin self)
                      (reset (_fps_counter self)) 0 (frames_read evs) ++ last
              ∧ if failed evs then last = []
                else ∃ evs', last_read evs' ∧ last = evs' ++ [Emit stopped])
        ∧ ∀ frame results fps latency_ms rolling_ms rest,
            signals evs
            = frame_processed frame results fps latency_ms rolling_ms :: rest →
            fps = 0%float ∧ latency_ms = 0%float ∧ rolling_ms = 0%float)
  ∧ (∀ env (self : FrameProcessorRunner P) c1 c2,
      maxlen (_frame_times c1) = maxlen (_frame_times c2) →
      maxlen (_values (_rolling c1)) = maxlen (_values (_rolling c2)) →
      is_Some (_run_loop env (start (with_counter self c1)).1)
      ∧ _run_loop env (start (with_counter self c1)).1
        = _run_loop env (start (with_counter self c2)).1).
Proof.
  split_and!.
  - intros self Hrun. unfold start. by rewrite Hrun.
  - intros [cap plugin running thread counter]. simpl. by intros ->.
  - intros self Hrun. unfold start. rewrite Hrun. simpl. by eexists.
  - intros env self.
    destruct (_run_loop_total env self) as [[self' evs] Hrun].
    exists self', evs. split_and!; [done| | |].
    + rewrite <- Hrun.
      by destruct self as [cap plugin running thread [last times [values]]].
    + exact (_run_loop_trace _ _ _ _ Hrun).
    + intros frame results fps latency_ms rolling_ms rest Hfirst.
      destruct (_run_loop_trace _ _ _ _ Hrun) as (last & Htrace & Hlast).
      rewrite Htrace, signals_app in Hfirst.
      destruct (signals (frame_passes env (_plugin self)
                           (reset (_fps_counter self)) 0 (frames_read evs)))
        as [|s sigs] eqn:Hsigs.
      * destruct (failed evs); [by subst last|].
        destruct Hlast as (evs' & Hread & ->). rewrite signals_app in Hfirst.
        by destruct Hread as [->|(ok & fr & _ & ->)].
      * simpl in Hfirst. injection Hfirst as -> _.
        by eapply frame_passes_after_reset.
  - intros env self c1 c2 Htimes Hvalues. split; [apply _run_loop_total|].
    unfold _run_loop, start, with_counter. simpl.
    destruct (_running self); simpl; by rewrite (reset_forgets c1 c2).
Qed.

End any_plugin.

Lemma plugin_failure_ends_run_witness :
  let self := demo.started (Some (demo.mkFlaky 0)) 7 in
  let run := _run_loop demo.quarter_seconds self in
  length (returned (outcomes (demo.events_of run))) = 4
  ∧ drop 4 (signals (demo.events_of run)) = [error_occurred "boom"; stopped]
  ∧ _running (demo.final_of self run) = false.
Proof.
  intros self run.
  destruct (proj2 (plugin_failure_ends_run demo.quarter_seconds self)
              (demo.final_of self run) (demo.events_of run)
              (returned (outcomes (demo.events_of run)))
              (RuntimeError "boom") [])
    as (_ & (sigs & Hsig & Hlen & _) & Hidle).
  - reflexivity.
  - reflexivity.
  - split_and!; [reflexivity| |exact Hidle].
    subst run self. rewrite Hsig. apply drop_app_length'. rewrite Hlen.
    reflexivity.
Defined.

Lemma frames_emitted_in_order_witness :
  let self := demo.started (Some (demo.mkFlaky 0)) 9 in
  let evs := demo.events_of (_run_loop demo.stop_after_three self) in
  failed evs = false
  ∧ frames_read evs = [demo.frame 0; demo.frame 1; demo.frame 2]
  ∧ signals evs
    = signals (frame_passes demo.stop_after_three (Some (demo.mkFlaky 0))
                 (reset (FPSCounter_init 30)) 0
                 [demo.frame 0; demo.frame 1; demo.frame 2])
      ++ [stopped]
  ∧ length (signals evs) = 4.
Proof.
  intros self evs.
  destruct (proj2 (frames_emitted_in_order demo.stop_after_three self)
              (demo.final_of self (_run_loop demo.stop_after_three self)) evs)
    as (_ & _ & Hsig & Hlen & _).
  - reflexivity.
  - reflexivity.
  - split_and!; [reflexivity..|exact Hsig|].
    rewrite Hsig, length_app, Hlen. reflexivity.
Defined.

Lemma passthrough_emits_raw_frame_witness :
  (iteration demo.quarter_seconds
     (mkWorker (demo.started (@None demo.Flaky) 2) 0 0)).1
  = [Read true (Some (demo.frame 0));
     Emit (frame_processed (demo.frame 0) ∅ 0%float 0%float 0%float)].
Proof.
  rewrite (proj1 (passthrough_emits_raw_frame demo.quarter_seconds
                    (mkWorker (demo.started (@None demo.Flaky) 2) 0 0)
                    (demo.frame 0) (capture.read (demo.clip 2)).2
                    eq_refl eq_refl eq_refl eq_refl eq_refl)).
  reflexivity.
Defined.

(** In pass-through mode the dictionary emitted with the first frame of a
    clip has none of the keys of the unified schema. *)
Lemma passthrough_result_lacks_schema_keys :
  ∃ results fps latency_ms rolling_ms w',
    iteration demo.quarter_seconds
      (mkWorker (demo.started (@None demo.Flaky) 2) 0 0)
    = ([Read true (Some (demo.frame 0));
        Emit (frame_processed (demo.frame 0) results fps latency_ms rolling_ms)],
       Continue w')
    ∧ results !! "pipeline" = None
    ∧ results !! "timestamp_s" = None
    ∧ results !! "detections" = None
    ∧ results !! "landmarks" = None
    ∧ results !! "metadata" = None.
Proof.
  eexists ∅, _, _, _, _. split; [reflexivity|]. by split_and!.
Qed.

Lemma start_stop_idempotent_witness :
  let idle := FrameProcessorRunner_init (P := demo.Flaky) (demo.clip 2) in
  let busy := demo.started (Some (demo.mkFlaky 0)) 2 in
  let stale :=
    set_plugin (with_counter idle demo.used_counter) (Some (demo.mkFlaky 0)) in
  let fresh := set_plugin idle (Some (demo.mkFlaky 0)) in
  start busy = (busy, [])
  ∧ stop idle = idle
  ∧ _running (start idle).1 = true
  ∧ is_Some (_run_loop demo.quarter_seconds (start stale).1)
  ∧ _run_loop demo.quarter_seconds (start stale).1
    = _run_loop demo.quarter_seconds (start fresh).1
  ∧ length (frames_read
              (demo.events_of (_run_loop demo.quarter_seconds (start stale).1)))
    = 2.
Proof.
  intros idle busy stale fresh.
  pose proof (start_stop_idempotent (P := demo.Flaky))
    as (Hstart & Hstop & Hbegin & _ & Hfresh).
  destruct (Hfresh demo.quarter_seconds fresh demo.used_counter
              (FPSCounter_init 30)) as [Hreturns Hsame]; [reflexivity..|].
  split_and!.
  - apply Hstart. reflexivity.
  - apply Hstop. reflexivity.
  - destruct (Hbegin idle) as (thread & _ & Hrun & _); [reflexivity|exact Hrun].
  - exact Hreturns.
  - exact Hsame.
  - reflexivity.
Defined.

End pipeline_runner.

(** * Further properties of the code *)

(** ** More on the rolling metrics (core/utils.py) *)

Section metrics_windows.
Import utils.

Lemma deque_append_fmap {A B} (f : A → B) n (l : list A) v :
  items (deque_append (Deque n (f <$> l)) (f v))
  = f <$> items (deque_append (Deque n l) v).
Proof.
  unfold deque_append. simpl. rewrite length_fmap.
  repeat case_decide; simpl; rewrite ?fmap_app; try done.
  by destruct l.
Qed.

(** What holds of every counter made by [FPSCounter(n)] and used through
    its methods. *)
Lemma counter_reachable n os :
  let c := foldl do_counter_call (FPSCounter_init n) os in
  maxlen (_frame_times c) = n
  ∧ maxlen (_values (_rolling c)) = n
  ∧ (_last_time c = None → items (_frame_times c) = [])
  ∧ items (_values (_rolling c))
    = (λ dt, (dt * 1000)%float) <$> items (_frame_times c).
Proof.
  induction os as [|o os IH] using rev_ind; simpl; [done|].
  rewrite foldl_snoc. simpl in IH.
  destruct (foldl do_counter_call (FPSCounter_init n) os)
    as [previous [m times] [[m' values]]].
  simpl in IH. destruct IH as (-> & -> & Hnone & ->).
  destruct o as [now|]; simpl; [|done].
  unfold tick. simpl. destruct previous as [t|]; simpl.
  - rewrite !deque_append_maxlen. simpl. split_and!; try done.
    apply (deque_append_fmap (λ dt, (dt * 1000)%float)).
  - by rewrite (Hnone eq_refl).
Qed.

(** X1: in every counter made by [FPSCounter(n)] and used through [tick]
    and [reset], the window of latencies is the window of frame times,
    sample by sample, each multiplied by 1000: the two never get out of
    step, also when a [tick] raised. *)
Theorem latency_window_mirrors_frame_times :
  ∀ n (os : list counter_call),
    let c := foldl do_counter_call (FPSCounter_init n) os in
    items (_values (_rolling c))
    = (λ dt, (dt * 1000)%float) <$> items (_frame_times c)
    ∧ count (_rolling c) = length (items (_frame_times c)).
Proof.
  intros n os c. destruct (counter_reachable n os) as (_ & _ & _ & Hsync).
  fold c in Hsync. split; [done|].
  unfold count. by rewrite Hsync, length_fmap.
Qed.

(** X2: a [tick] of such a counter raises nothing but
    [ZeroDivisionError], and only when the window has room ([n] is not 0)
    and the clock has not moved since the previous [tick]; otherwise it
    returns latency 0 and FPS 0 when there is no previous [tick], else the
    latency of the interval and its reciprocal as FPS (FPS 0 when the
    window has no room). *)
Theorem tick_raises_only_at_zero_interval :
  ∀ n (os : list counter_call) now,
    let c := foldl do_counter_call (FPSCounter_init n) os in
    match (tick c now).2 with
    | Raise e =>
        e = ZeroDivisionError
        ∧ n ≠ 0
        ∧ ∃ previous, _last_time c = Some previous
                      ∧ PrimFloat.eqb (now - previous) 0 = true
    | Ok (fps, latency_ms) =>
        match _last_time c with
        | None => fps = 0%float ∧ latency_ms = 0%float
        | Some previous =>
            latency_ms = ((now - previous) * 1000)%float
            ∧ (if decide (n = 0) then fps = 0%float
               else PrimFloat.eqb (now - previous) 0 = false
                    ∧ fps = (1 / (now - previous))%float)
        end
    end.
Proof.
  intros n os now c.
  destruct (counter_reachable n os) as (Hmax & _ & Hnone & _).
  fold c in Hmax, Hnone. unfold tick.
  destruct (_last_time c) as [previous|] eqn:Hlast; simpl.
  - destruct (decide (n = 0)) as [->|Hn].
    + unfold deque_append. rewrite Hmax. simpl.
      destruct (items (_frame_times c)) as [|x l] eqn:Hitems; simpl; [done|].
      pose proof (counter_window 0 os) as (_ & _ & Hlen & _).
      fold c in Hlen. rewrite Hitems in Hlen. simpl in Hlen. lia.
    + rewrite deque_append_last by congruence. simpl. unfold truediv.
      destruct (PrimFloat.eqb (now - previous) 0) eqn:Hz; simpl.
      * split_and!; try done. by exists previous.
      * done.
  - rewrite (Hnone eq_refl). simpl. done.
Qed.

End metrics_windows.

(** ** More on the capture source (core/capture.py) *)

Section capture_reads.
Import cv2 capture.


(** X4: [read] on a source that is not open (never opened, closed, or
    whose open failed) returns (False, None) and leaves the source as it
    is. *)
Theorem read_when_not_open :
  ∀ s, is_opened s = false → read s = ((false, None), s).
Proof.
  intros [[[hd op str]|] path idx]; unfold is_opened, read, cv2.read, isOpened;
    simpl; [|done].
  by intros ->.
Qed.

Lemma read_when_not_open_witness :
  read VideoCaptureSource_init = ((false, None), VideoCaptureSource_init).
Proof. apply read_when_not_open. reflexivity. Defined.

(** X5: [k] reads in a row from an open source return the next [k] items
    of its stream, in order, and (False, None) for every read beyond the
    end; the source is left on the rest of the stream and stays open. *)
Theorem reads_follow_the_stream :
  ∀ k s,
    is_opened s = true →
    (read_n k s).1
    = take k (runner.pending s)
      ++ replicate (k - length (runner.pending s)) (false, None)
    ∧ runner.pending (read_n k s).2 = drop k (runner.pending s)
    ∧ is_opened (read_n k s).2 = true.
Proof.
  induction k as [|k IH]; intros s Hopen; [by rewrite drop_0|].
  destruct s as [[[hd op str]|] path idx]; [|done].
  unfold is_opened, isOpened in Hopen. simpl in Hopen. subst op.
  simpl. unfold read, cv2.read. simpl.
  destruct str as [|item str]; simpl.
  - match goal with
    | |- context [read_n k ?s'] =>
        destruct (IH s' eq_refl) as (Hr & Hp & Ho); destruct (read_n k s') as [rs s2]
    end.
    simpl in *. rewrite Hr, Hp, Ho. unfold runner.pending. simpl.
    rewrite take_nil, drop_nil, Nat.sub_0_r. done.
  - match goal with
    | |- context [read_n k ?s'] =>
        destruct (IH s' eq_refl) as (Hr & Hp & Ho); destruct (read_n k s') as [rs s2]
    end.
    simpl in *. rewrite Hr, Hp, Ho. done.
Qed.

Lemma reads_follow_the_stream_witness :
  (read_n 3 (demo.clip 2)).1
  = [(true, Some (demo.frame 0)); (true, Some (demo.frame 1)); (false, None)].
Proof.
  rewrite (proj1 (reads_follow_the_stream 3 (demo.clip 2) eq_refl)).
  reflexivity.
Defined.

End capture_reads.

(** ** Camera enumeration (core/camera_list.py) *)

Section cameras.
Import cv2 camera_list.

Lemma probe_one_spec h acc i :
  handles_fresh h →
  ∃ h', probe_one (h, acc) i
        = (h', if decide (openable h i) then acc ++ [camera_entry i] else acc)
        ∧ open_handles h' = open_handles h
        ∧ media h' = media h
        ∧ sys_platform h' = sys_platform h
        ∧ next_handle h' = S (next_handle h).
Proof.
  intros Hfresh. destruct (decide (openable h i)) as [Hopen|Hopen].
  - unfold openable in Hopen. destruct Hopen as [frames Hm].
    unfold probe_one, VideoCapture_init, release, isOpened. rewrite Hm. simpl.
    eexists. split; [reflexivity|]. simpl. split_and!; try done.
    assert (next_handle h ∉ open_handles h)
      by (intros Hin; apply Hfresh in Hin; lia).
    set_solver.
  - unfold openable in Hopen.
    unfold probe_one, VideoCapture_init, release, isOpened.
    destruct (media h (Device (Z.of_nat i) CAP_ANY)) as [frames|] eqn:Hm;
      [by destruct Hopen|].
    simpl. eexists. by split.
Qed.

Lemma probe_from h acc a k :
  handles_fresh h →
  ∃ h', foldl probe_one (h, acc) (seq a k)
        = (h', acc ++ (camera_entry <$> filter (openable h) (seq a k)))
        ∧ open_handles h' = open_handles h
        ∧ media h' = media h
        ∧ sys_platform h' = sys_platform h
        ∧ next_handle h' = next_handle h + k.
Proof.
  revert h acc a. induction k as [|k IH]; intros h acc a Hfresh.
  - exists h. simpl. rewrite app_nil_r. split_and!; try done; lia.
  - change (seq a (S k)) with (a :: seq (S a) k).
    change (foldl probe_one (h, acc) (a :: seq (S a) k))
      with (foldl probe_one (probe_one (h, acc) a) (seq (S a) k)).
    destruct (probe_one_spec h acc a Hfresh) as (h1 & -> & Ho & Hm & Hp & Hn).
    assert (Hfresh1 : handles_fresh h1).
    { intros x. rewrite Ho, Hn. intros Hx. apply Hfresh in Hx. lia. }
    destruct (IH h1 (if decide (openable h a) then acc ++ [camera_entry a] else acc)
                (S a) Hfresh1) as (h2 & -> & Ho2 & Hm2 & Hp2 & Hn2).
    exists h2. split_and!; try congruence; [|lia].
    f_equal. rewrite filter_cons.
    assert (Hsame : filter (openable h1) (seq (S a) k)
                    = filter (openable h) (seq (S a) k)).
    { apply list_filter_iff. intros i. unfold openable. by rewrite Hm. }
    rewrite Hsame. case_decide; simpl; [|done].
    by rewrite <- app_assoc.
Qed.

(** X6: on a host that hands out fresh handles, [_probe_opencv] returns
    an entry [(i, "Camera i")] for exactly the indices below
    [max_cameras] that the host can open, in increasing order, and leaves
    the host with the handles it had: every capture it opened is released,
    none is leaked. *)
Theorem probe_lists_openable_cameras :
  ∀ h max_cameras,
    handles_fresh h →
    (_probe_opencv h max_cameras).2
    = camera_entry <$> filter (openable h) (seq 0 max_cameras)
    ∧ open_handles (_probe_opencv h max_cameras).1 = open_handles h
    ∧ media (_probe_opencv h max_cameras).1 = media h.
Proof.
  intros h max_cameras Hfresh. unfold _probe_opencv.
  destruct (probe_from h [] 0 max_cameras Hfresh) as (h' & -> & Ho & Hm & _).
  done.
Qed.

Lemma probe_lists_openable_cameras_witness :
  (_probe_opencv (Host_boot "linux" demo.media) 4).2 = [(0%Z, "Camera 0")]
  ∧ open_handles (_probe_opencv (Host_boot "linux" demo.media) 4).1 = ∅.
Proof.
  destruct (probe_lists_openable_cameras (Host_boot "linux" demo.media) 4)
    as (Hlist & Hhandles & _).
  - intros x Hx. simpl in Hx. set_solver.
  - split; [|exact Hhandles]. rewrite Hlist. reflexivity.
Defined.

Lemma enumerate_indices devices :
  (enumerate devices).*1 = Z.of_nat <$> seq 0 (length devices).
Proof.
  unfold enumerate.
  assert (Hgen : ∀ a, (imap (λ i name, (Z.of_nat (a + i), name)) devices).*1
                      = Z.of_nat <$> seq a (length devices)).
  { induction devices as [|d devices IH]; intros a; [done|].
    rewrite imap_cons. cbn [length seq fmap list_fmap fst].
    rewrite Nat.add_0_r. f_equal.
    rewrite <- (IH (S a)). f_equal. apply imap_ext. intros i x _. simpl.
    f_equal. f_equal. lia. }
  apply (Hgen 0).
Qed.

(** X7: whenever [get_camera_list] returns a list, no index occurs twice
    in it and none is negative, and the host has the open handles it had
    before; it raises only on Windows, with the exception that the
    DirectShow enumeration raised, and never an [ImportError]. *)
Theorem camera_list_indices_distinct :
  ∀ h pygrabber,
    handles_fresh h →
    open_handles (get_camera_list h pygrabber).1 = open_handles h
    ∧ match (get_camera_list h pygrabber).2 with
      | Ok cameras =>
          NoDup cameras.*1 ∧ Forall (λ i, (0 ≤ i)%Z) cameras.*1
      | Raise e =>
          sys_platform h = "win32" ∧ pygrabber = Raise e
          ∧ ∀ message, e ≠ ImportError message
      end.
Proof.
  intros h pygrabber Hfresh.
  assert (Hp : open_handles (_probe_opencv h 16).1 = open_handles h
               ∧ NoDup (_probe_opencv h 16).2.*1
               ∧ Forall (λ i, (0 ≤ i)%Z) (_probe_opencv h 16).2.*1).
  { destruct (probe_from h [] 0 16 Hfresh) as (h' & Hrun & Ho & _).
    unfold _probe_opencv. rewrite Hrun. cbn [fst snd app].
    split; [done|]. rewrite <- list_fmap_compose.
    split.
    - apply NoDup_fmap_2; [intros i j Hij; simpl in Hij; lia|].
      apply NoDup_filter, NoDup_seq.
    - apply Forall_fmap, Forall_forall. intros i _. simpl. lia. }
  unfold get_camera_list.
  destruct (_probe_opencv h 16) as [h' r] eqn:Hr. simpl in Hp.
  destruct Hp as (Ho & Hnd & Hpos).
  case_decide as Hwin; simpl; [|done].
  destruct pygrabber as [devices|e]; simpl.
  - case_decide; simpl; [|done]. split; [done|].
    rewrite enumerate_indices. split.
    + apply NoDup_fmap_2; [intros i j Hij; lia|]. apply NoDup_seq.
    + apply Forall_fmap, Forall_forall. intros i _. simpl. lia.
  - destruct e; simpl; try done.
Qed.

Lemma camera_list_indices_distinct_witness :
  (get_camera_list (Host_boot "win32" demo.media)
     (Ok ["Integrated Camera"; "USB Camera"])).2
  = Ok [(0%Z, "Integrated Camera"); (1%Z, "USB Camera")]
  ∧ open_handles (get_camera_list (Host_boot "linux" demo.media)
                    (Raise (ImportError "No module named 'pygrabber'"))).1
    = ∅.
Proof.
  split; [reflexivity|].
  destruct (camera_list_indices_distinct (Host_boot "linux" demo.media)
              (Raise (ImportError "No module named 'pygrabber'")))
    as [Hhandles _].
  - intros x Hx. simpl in Hx. set_solver.
  - exact Hhandles.
Defined.

End cameras.

(** ** Model files (core/model_loader.py) *)

Section model_files.
Import model_loader.

Example unknown_model_message :
  (get_model_path (λ _, Retrieved) ∅ "yolo.onnx").2
  = Raise (FileNotFoundError
             "Unknown model: yolo.onnx. Known: ['hand_landmarker.task', 'pose_landmarker_lite.task', 'face_landmarker.task', 'efficientdet_lite0.tflite', 'blaze_face_short_range.tflite', 'gesture_recognizer.task']").
Proof. vm_compute. reflexivity. Qed.

(** X8: when [get_model_path] returns a path it is the file of that name
    in the models directory and the file is there afterwards; nothing that
    was there is removed; and asking again returns the same path without
    fetching anything. *)
Theorem model_path_is_cached :
  ∀ urlretrieve files filename files' fetched path,
    get_model_path urlretrieve files filename = (files', fetched, Ok path) →
    path = in_models_dir filename
    ∧ filename ∈ files'
    ∧ files ⊆ files'
    ∧ get_model_path urlretrieve files' filename = (files', [], Ok path).
Proof.
  intros urlretrieve files filename files' fetched path.
  unfold get_model_path.
  destruct (decide (filename ∈ files)) as [Hin|Hout].
  - intros [= <- <- <-]. split_and!; try done. by rewrite decide_True.
  - destruct (url_of filename) as [url|]; [|done].
    case_decide; [done|].
    destruct (urlretrieve url) as [|e partial_file]; [|done].
    intros [= <- <- <-]. split_and!; try done; [set_solver..|].
    rewrite decide_True by set_solver. done.
Qed.

Lemma model_path_is_cached_witness :
  let files := (get_model_path (λ _, Retrieved) ∅ "face_landmarker.task").1.1 in
  get_model_path (λ _, Interrupted (RuntimeError "offline") false) files
    "face_landmarker.task"
  = (files, [], Ok (in_models_dir "face_landmarker.task")).
Proof.
  intros files.
  apply (model_path_is_cached (λ _, Interrupted (RuntimeError "offline") false)
           files "face_landmarker.task" files [] _).
  vm_compute. reflexivity.
Defined.


End model_files.

(** ** The plugins with a session (plugins/*.py) *)

Section plugins_initialized.
Import cv2 mediapipe base plugin_util.
Context `{Runtime}.

Lemma schema_follows pipeline timestamp_s detections landmarks metadata :
  follows_schema pipeline timestamp_s
    (models.unified_results_schema pipeline timestamp_s detections landmarks
       metadata).
Proof.
  unfold follows_schema, models.unified_results_schema. split_and!.
  - rewrite !dom_insert_L, dom_empty_L. set_solver.
  - by simplify_map_eq.
  - by simplify_map_eq.
  - eexists _, _, _. split_and!; by simplify_map_eq.
Qed.

(** Takes a [process] call apart along its branches. *)
Ltac process_cases Hprocess :=
  unfold mbind, result_bind in Hprocess;
  repeat match type of Hprocess with
  | context [match ?x with _ => _ end] =>
      destruct x eqn:?; cbv beta iota in Hprocess
  end;
  simplify_eq.

(** X10: whatever the task returns, every result a built-in plugin's
    [process] returns (with a session or without) has exactly the five
    keys of the unified schema, with the plugin's identifier, the timestamp
    it was given, lists for detections and landmarks and a dictionary for
    the metadata. *)
Theorem plugins_keep_schema :
  keeps_schema face_detector.FaceDetectorPlugin
  ∧ keeps_schema object_detector.ObjectDetectorPlugin
  ∧ keeps_schema pose.PosePlugin
  ∧ keeps_schema facemesh.FaceMeshPlugin
  ∧ keeps_schema gesture_recognizer.GestureRecognizerPlugin.
Proof.
  split_and!; intros self self' frame timestamp_s annotated results Hprocess;
    unfold process, face_detector.plugin_class, object_detector.plugin_class,
      pose.plugin_class, facemesh.plugin_class,
      gesture_recognizer.plugin_class in Hprocess.
  - unfold face_detector.process in Hprocess.
    process_cases Hprocess; exact (schema_follows _ _ _ _ _).
  - unfold object_detector.process in Hprocess.
    process_cases Hprocess; exact (schema_follows _ _ _ _ _).
  - unfold pose.process in Hprocess.
    process_cases Hprocess; exact (schema_follows _ _ _ _ _).
  - unfold facemesh.process in Hprocess.
    process_cases Hprocess; exact (schema_follows _ _ _ _ _).
  - unfold gesture_recognizer.process in Hprocess.
    process_cases Hprocess; exact (schema_follows _ _ _ _ _).
Qed.

Lemma schema_lookups pipeline timestamp_s detections landmarks metadata :
  let results := models.unified_results_schema pipeline timestamp_s
                   (Some detections) (Some landmarks) (Some metadata) in
  results !! "detections" = Some (VList detections)
  ∧ results !! "landmarks" = Some (VList landmarks)
  ∧ results !! "metadata" = Some (VDict metadata).
Proof.
  unfold models.unified_results_schema. simpl. split_and!; by simplify_map_eq.
Qed.

Lemma schema_counts key detections landmarks pipeline timestamp_s :
  let results n := models.unified_results_schema pipeline timestamp_s
                     (Some detections) (Some landmarks)
                     (Some {[key := VInt (Z.of_nat n)]}) in
  counts key "detections" (results (length detections))
  ∧ counts key "landmarks" (results (length landmarks)).
Proof.
  intros results. split.
  - exists detections.
    destruct (schema_lookups pipeline timestamp_s detections landmarks
                {[key := VInt (Z.of_nat (length detections))]}) as (? & ? & ?).
    by split.
  - exists landmarks.
    destruct (schema_lookups pipeline timestamp_s detections landmarks
                {[key := VInt (Z.of_nat (length landmarks))]}) as (? & ? & ?).
    by split.
Qed.

(** X11: in every result a plugin returns while it has a session, the
    count in the metadata is the number of entries listed: [num_faces] and
    [num_detections] count the detections of the two detectors, whose
    landmarks are empty; [num_faces] and [num_hands] count the landmark
    groups of the face mesh and the gesture recogniser; [has_pose] says
    whether the pose plugin lists a landmark group, and its detections are
    empty. *)
Theorem metadata_counts_agree :
  (∀ self self' frame timestamp_s annotated results t,
      face_detector._detector self = Some t →
      face_detector.process self frame timestamp_s
      = (self', Ok (annotated, results)) →
      counts "num_faces" "detections" results
      ∧ results !! "landmarks" = Some (VList []))
  ∧ (∀ self self' frame timestamp_s annotated results t,
      object_detector._detector self = Some t →
      object_detector.process self frame timestamp_s
      = (self', Ok (annotated, results)) →
      counts "num_detections" "detections" results
      ∧ results !! "landmarks" = Some (VList []))
  ∧ (∀ self self' frame timestamp_s annotated results t,
      pose._landmarker self = Some t →
      pose.process self frame timestamp_s = (self', Ok (annotated, results)) →
      (∃ groups,
          results !! "landmarks" = Some (VList groups)
          ∧ results !! "metadata"
            = Some (VDict {["has_pose" := VBool (bool_decide (0 < length groups))]}))
      ∧ results !! "detections" = Some (VList []))
  ∧ (∀ self self' frame timestamp_s annotated results t,
      facemesh._landmarker self = Some t →
      facemesh.process self frame timestamp_s
      = (self', Ok (annotated, results)) →
      counts "num_faces" "landmarks" results
      ∧ results !! "detections" = Some (VList []))
  ∧ (∀ self self' frame timestamp_s annotated results t,
      gesture_recognizer._recognizer self = Some t →
      gesture_recognizer.process self frame timestamp_s
      = (self', Ok (annotated, results)) →
      counts "num_hands" "landmarks" results).
Proof.
  split_and!; intros self self' frame timestamp_s annotated results t Ht Hprocess.
  - unfold face_detector.process in Hprocess. rewrite Ht in Hprocess.
    process_cases Hprocess.
    match goal with
    | |- context [models.unified_results_schema ?p ?ts (Some ?d) (Some ?l) _] =>
        split; [exact (proj1 (schema_counts "num_faces" d l p ts))
               |exact (proj1 (proj2 (schema_lookups p ts d l _)))]
    end.
  - unfold object_detector.process in Hprocess. rewrite Ht in Hprocess.
    process_cases Hprocess.
    match goal with
    | |- context [models.unified_results_schema ?p ?ts (Some ?d) (Some ?l) _] =>
        split; [exact (proj1 (schema_counts "num_detections" d l p ts))
               |exact (proj1 (proj2 (schema_lookups p ts d l _)))]
    end.
  - unfold pose.process in Hprocess. rewrite Ht in Hprocess.
    process_cases Hprocess.
    match goal with
    | |- context [models.unified_results_schema ?p ?ts (Some ?d) (Some ?l) (Some ?m)] =>
        destruct (schema_lookups p ts d l m) as (Hd & Hl & Hm)
    end.
    split; [|exact Hd]. eexists. split; [exact Hl|exact Hm].
  - unfold facemesh.process in Hprocess. rewrite Ht in Hprocess.
    process_cases Hprocess.
    match goal with
    | |- context [models.unified_results_schema ?p ?ts (Some ?d) (Some ?l) _] =>
        split; [exact (proj2 (schema_counts "num_faces" d l p ts))
               |exact (proj1 (schema_lookups p ts d l _))]
    end.
  - unfold gesture_recognizer.process in Hprocess. rewrite Ht in Hprocess.
    process_cases Hprocess.
    match goal with
    | |- context [models.unified_results_schema ?p ?ts (Some ?d) (Some ?l) _] =>
        exact (proj2 (schema_counts "num_hands" d l p ts))
    end.
Qed.

(** X12: a failed [init] never keeps a session: whatever session the
    plugin had before, when [init] raises the plugin is left closed and
    [process] answers "not initialized". *)
Theorem failed_init_leaves_plugin_closed :
  init_fails_closed face_detector.FaceDetectorPlugin
  ∧ init_fails_closed object_detector.ObjectDetectorPlugin
  ∧ init_fails_closed pose.PosePlugin
  ∧ init_fails_closed facemesh.FaceMeshPlugin
  ∧ init_fails_closed gesture_recognizer.GestureRecognizerPlugin.
Proof.
  split_and!; intros self self' settings e Hinit;
    unfold init, face_detector.plugin_class, object_detector.plugin_class,
      pose.plugin_class, facemesh.plugin_class,
      gesture_recognizer.plugin_class in Hinit.
  - unfold face_detector.init in Hinit. process_cases Hinit.
    by apply not_initialized_answer.
  - unfold object_detector.init in Hinit. process_cases Hinit.
    by apply not_initialized_answer.
  - unfold pose.init in Hinit. process_cases Hinit.
    by apply not_initialized_answer.
  - unfold facemesh.init in Hinit. process_cases Hinit.
    by apply not_initialized_answer.
  - unfold gesture_recognizer.init in Hinit. process_cases Hinit.
    by apply not_initialized_answer.
Qed.

(** X13: [PluginInitWorker.run] emits exactly one [init_done] signal and
    hands back the plugin as [init] left it: success with an empty message
    when [init] returned, failure with the text of the exception when it
    raised; and after a reported failure a plugin of a class that fails
    closed answers "not initialized". *)
Theorem init_worker_reports_once :
  ∀ P `{MediaPipePluginBase P} (plugin : P) settings,
    (main_window.PluginInitWorker_run plugin settings).1
    = (init plugin settings).1
    ∧ match (init plugin settings).2 with
      | Ok _ =>
          (main_window.PluginInitWorker_run plugin settings).2 = [(true, "")]
      | Raise e =>
          (main_window.PluginInitWorker_run plugin settings).2
          = [(false, str_exn e)]
          ∧ (init_fails_closed P →
             answers_not_initialized
               (main_window.PluginInitWorker_run plugin settings).1)
      end.
Proof.
  intros P HP plugin settings. unfold main_window.PluginInitWorker_run.
  destruct (init plugin settings) as [plugin' [[]|e]] eqn:Hinit; simpl;
    [done|].
  split_and!; try done. intros Hclosed. by eapply Hclosed.
Qed.

(** Takes a [process] call on a plugin with a session apart: either it
    raised before the task was called, or the task was called. *)
Ltac session_cases Hprocess :=
  unfold mbind, result_bind in Hprocess;
  repeat match type of Hprocess with
  | context [match ?x with _ => _ end] =>
      destruct x eqn:?; cbv beta iota in Hprocess
  end;
  simplify_eq;
  repeat match goal with
  | Hcase : context [match ?x with _ => _ end] |- _ =>
      destruct x eqn:?; cbv beta iota in Hcase
  end;
  simplify_eq;
  first [by left
        |right;
         match goal with
         | Heq : for_video _ ?image ?ms = _ |- _ =>
             exists image, ms; split; [done|]; by rewrite Heq
         end].

(** X14: [process] never opens or closes a session.  On a plugin without
    a session it returns and leaves the plugin as it is.  On a plugin with
    a session it either raises before the task is called and leaves the
    plugin as it is, or it leaves the session as the task's call for the
    timestamp in whole milliseconds left it, whether [process] then
    returns or raises. *)
Theorem process_keeps_session :
  (∀ self self' frame timestamp_s r,
      face_detector.process self frame timestamp_s = (self', r) →
      match face_detector._detector self with
      | None => self' = self ∧ is_ok r = true
      | Some t =>
          (self' = self ∧ is_ok r = false)
          ∨ ∃ image ms,
              int_of_float (timestamp_s * 1000) = Ok ms
              ∧ self' = face_detector.mkPlugin (Some (for_video t image ms).1)
      end)
  ∧ (∀ self self' frame timestamp_s r,
      object_detector.process self frame timestamp_s = (self', r) →
      match object_detector._detector self with
      | None => self' = self ∧ is_ok r = true
      | Some t =>
          (self' = self ∧ is_ok r = false)
          ∨ ∃ image ms,
              int_of_float (timestamp_s * 1000) = Ok ms
              ∧ self' = object_detector.mkPlugin (Some (for_video t image ms).1)
      end)
  ∧ (∀ self self' frame timestamp_s r,
      pose.process self frame timestamp_s = (self', r) →
      match pose._landmarker self with
      | None => self' = self ∧ is_ok r = true
      | Some t =>
          (self' = self ∧ is_ok r = false)
          ∨ ∃ image ms,
              int_of_float (timestamp_s * 1000) = Ok ms
              ∧ self' = pose.mkPlugin (Some (for_video t image ms).1)
      end)
  ∧ (∀ self self' frame timestamp_s r,
      facemesh.process self frame timestamp_s = (self', r) →
      match facemesh._landmarker self with
      | None => self' = self ∧ is_ok r = true
      | Some t =>
          (self' = self ∧ is_ok r = false)
          ∨ ∃ image ms,
              int_of_float (timestamp_s * 1000) = Ok ms
              ∧ self' = facemesh.mkPlugin (Some (for_video t image ms).1)
      end)
  ∧ (∀ self self' frame timestamp_s r,
      gesture_recognizer.process self frame timestamp_s = (self', r) →
      match gesture_recognizer._recognizer self with
      | None => self' = self ∧ is_ok r = true
      | Some t =>
          (self' = self ∧ is_ok r = false)
          ∨ ∃ image ms,
              int_of_float (timestamp_s * 1000) = Ok ms
              ∧ self' = gesture_recognizer.mkPlugin (Some (for_video t image ms).1)
      end).
Proof.
  split_and!; intros self self' frame timestamp_s r Hprocess.
  - unfold face_detector.process in Hprocess.
    destruct (face_detector._detector self) as [t|] eqn:Ht; [|by simplify_eq].
    session_cases Hprocess.
  - unfold object_detector.process in Hprocess.
    destruct (object_detector._detector self) as [t|] eqn:Ht; [|by simplify_eq].
    session_cases Hprocess.
  - unfold pose.process in Hprocess.
    destruct (pose._landmarker self) as [t|] eqn:Ht; [|by simplify_eq].
    session_cases Hprocess.
  - unfold facemesh.process in Hprocess.
    destruct (facemesh._landmarker self) as [t|] eqn:Ht; [|by simplify_eq].
    session_cases Hprocess.
  - unfold gesture_recognizer.process in Hprocess.
    destruct (gesture_recognizer._recognizer self) as [t|] eqn:Ht; [|by simplify_eq].
    session_cases Hprocess.
Qed.

End plugins_initialized.

Section plugins_exercised.
Import cv2 mediapipe base plugin_util.

Lemma plugins_keep_schema_witness :
  follows_schema "face_detector" 1%float
    (not_initialized "face_detector" 1%float).
Proof.
  apply (proj1 (plugins_keep_schema (H := demo.no_models))
           face_detector.FaceDetectorPlugin_init
           face_detector.FaceDetectorPlugin_init (demo.frame 0) 1%float
           (demo.frame 0)).
  reflexivity.
Defined.

Lemma metadata_counts_agree_witness :
  counts "num_faces" "detections"
    (models.unified_results_schema "face_detector" 1%float (Some []) (Some [])
       (Some {["num_faces" := VInt 0]})).
Proof.
  refine (proj1 (proj1 (metadata_counts_agree (H := demo.no_models))
                   (face_detector.mkPlugin (Some demo.quiet_task))
                   (face_detector.mkPlugin (Some demo.quiet_task))
                   (demo.frame 0) 1%float (demo.frame 0) _ demo.quiet_task
                   eq_refl _)).
  reflexivity.
Defined.

Lemma failed_init_leaves_plugin_closed_witness :
  answers_not_initialized
    (init (MediaPipePluginBase := face_detector.plugin_class (H := demo.no_models))
       (face_detector.mkPlugin (Some demo.quiet_task)) ∅).1.
Proof.
  apply (proj1 (failed_init_leaves_plugin_closed (H := demo.no_models))
           (face_detector.mkPlugin (Some demo.quiet_task)) _ ∅
           (FileNotFoundError "Unknown model: blaze_face_short_range.tflite")).
  reflexivity.
Defined.

Lemma init_worker_reports_once_witness :
  (main_window.PluginInitWorker_run
     (H := face_detector.plugin_class (H := demo.no_models))
     (face_detector.mkPlugin (Some demo.quiet_task)) ∅).2
  = [(false, "Unknown model: blaze_face_short_range.tflite")].
Proof.
  apply (proj2 (init_worker_reports_once face_detector.FaceDetectorPlugin
                  (H0 := face_detector.plugin_class (H := demo.no_models))
                  (face_detector.mkPlugin (Some demo.quiet_task)) ∅)).
Defined.

Lemma process_keeps_session_witness :
  let self := face_detector.mkPlugin (Some demo.broken_task) in
  ∃ image ms,
    (face_detector.process (H := demo.no_models) self (demo.frame 0) 1%float).1
    = face_detector.mkPlugin (Some (for_video demo.broken_task image ms).1).
Proof.
  intros self.
  destruct (proj1 (process_keeps_session (H := demo.no_models)) self
              (face_detector.process (H := demo.no_models) self
                 (demo.frame 0) 1%float).1
              (demo.frame 0) 1%float
              (Raise (RuntimeError "inference failed")))
    as [[_ Hnot]|(image & ms & _ & Hsession)]; [reflexivity|..].
  - exists (mkImage (demo.frame 0)), 1000%Z. reflexivity.
  - by exists image, ms.
Defined.

(** X15: in the gesture recogniser, attaching the handedness changes
    neither the number of detections nor any of their entries other than
    ["handedness"]; and there are at most as many detections as gesture
    lists, one for each that is not empty. *)
Theorem handedness_only_annotates :
  ∀ (detections_list : list (gmap string PyVal)) handedness,
    length (gesture_recognizer.set_handedness detections_list handedness)
    = length detections_list
    ∧ (∀ i d',
          gesture_recognizer.set_handedness detections_list handedness !! i
          = Some d' →
          ∃ d, detections_list !! i = Some d
               ∧ ∀ key, key ≠ "handedness" → d' !! key = d !! key)
    ∧ (∀ gestures,
          length (gesture_recognizer.gesture_dicts gestures)
          = length (filter (λ cats, cats ≠ []) gestures)).
Proof.
  intros detections_list handedness. unfold gesture_recognizer.set_handedness.
  generalize (imap pair handedness). intros l.
  assert (Hgen :
    length (foldl (λ dl '(i, handedness_cats),
                     if decide (i < length dl)
                     then alter (insert "handedness"
                                   match handedness_cats with
                                   | c :: _ => str_val (category_name c)
                                   | [] => VStr ""
                                   end) i dl
                     else dl) detections_list l) = length detections_list
    ∧ ∀ i d',
        foldl (λ dl '(i, handedness_cats),
                 if decide (i < length dl)
                 then alter (insert "handedness"
                               match handedness_cats with
                               | c :: _ => str_val (category_name c)
                               | [] => VStr ""
                               end) i dl
                 else dl) detections_list l !! i = Some d' →
        ∃ d, detections_list !! i = Some d
             ∧ ∀ key, key ≠ "handedness" → d' !! key = d !! key).
  { revert detections_list.
    induction l as [|[j cats] l IH]; intros dl; simpl; [by eauto|].
    match goal with
    | |- context [foldl _ ?dl1 l] => destruct (IH dl1) as [Hlen Hkeys]
    end.
    split.
    - rewrite Hlen. case_decide; [apply length_alter|done].
    - intros i d' Hi. destruct (Hkeys i d' Hi) as (d1 & Hd1 & Hsame).
      case_decide; [|by eauto].
      destruct (decide (j = i)) as [->|Hne].
      + rewrite list_lookup_alter_eq in Hd1.
        destruct (dl !! i) as [d|] eqn:Hd; [|done]. simpl in Hd1.
        injection Hd1 as <-. exists d. split; [done|].
        intros key Hkey. rewrite Hsame by done. by rewrite lookup_insert_ne.
      + rewrite list_lookup_alter_ne in Hd1 by done. by eauto. }
  destruct Hgen as [Hlen Hkeys]. split_and!; [done|done|].
  intros gestures. unfold gesture_recognizer.gesture_dicts.
  induction gestures as [|[|c cats] gestures IH]; [done|..].
  - rewrite filter_cons. case_decide; [done|]. exact IH.
  - rewrite filter_cons. case_decide; [|done]. simpl. by rewrite <- IH.
Qed.

Lemma handedness_only_annotates_witness :
  gesture_recognizer.set_handedness
    [{["label" := VStr "Thumb_Up"]}]
    [[mkCategory (Some "Left") None]; [mkCategory (Some "Right") None]]
  !! 0 ≫= (.!! "label")
  = Some (VStr "Thumb_Up").
Proof.
  destruct (proj1 (proj2 (handedness_only_annotates
                     [{["label" := VStr "Thumb_Up"]}]
                     [[mkCategory (Some "Left") None];
                      [mkCategory (Some "Right") None]]))
              0 (<["handedness" := VStr "Left"]> {["label" := VStr "Thumb_Up"]}))
    as (d & Hd & Hsame); [reflexivity|].
  reflexivity.
Defined.

End plugins_exercised.

(** ** More on the pipeline runner (core/runner.py) *)

Section runner_runs.
Import cv2 capture utils base runner.
Context {P : Type} `{MediaPipePluginBase P}.

(** What one pass through the loop does to the flags and the counters. *)
Lemma iteration_flow env (w : Worker) :
  match iteration env w with
  | (evs, Continue w') =>
      stop_called env (tests w) = false
      ∧ _running (self_ w) = true
      ∧ _running (self_ w') = true
      ∧ tests w' = S (tests w)
      ∧ frames_processed evs
        = (if plugged (self_ w) then frames_read evs else [])
      ∧ (_plugin (self_ w) = None →
         _plugin (self_ w') = None
         ∧ _fps_counter (self_ w') = _fps_counter (self_ w)
         ∧ ∃ f, evs = [Read true (Some f);
                       Emit (frame_processed f ∅ 0%float 0%float 0%float)])
  | (evs, Break w') =>
      _running (self_ w')
      = (if stop_called env (tests w) then false else _running (self_ w))
      ∧ _plugin (self_ w') = _plugin (self_ w)
      ∧ _fps_counter (self_ w') = _fps_counter (self_ w)
      ∧ frames_processed evs = []
      ∧ outcomes evs = []
  | (evs, Return w') =>
      stop_called env (tests w) = false
      ∧ is_Some (_plugin (self_ w))
      ∧ frames_processed evs = frames_read evs
  end.
Proof.
  unfold iteration, plugged.
  destruct (stop_called env (tests w)) eqn:Hstop; simpl.
  { by split_and!. }
  destruct (_running (self_ w)) eqn:Hrun; simpl; [|by split_and!].
  destruct (is_opened (_capture (self_ w))) eqn:Hopen; simpl; [|by split_and!].
  destruct (capture.read (_capture (self_ w))) as [[ok frame] cap].
  destruct ok; [destruct frame as [f|]|]; simpl; try by split_and!.
  destruct (_plugin (self_ w)) as [plugin|] eqn:Hp; simpl.
  - destruct (process plugin f (perf_counter env (clock w)))
      as [plugin' [[annotated results]|e]] eqn:Hprocess; simpl.
    + destruct (tick (_fps_counter (self_ w)) (perf_counter env (S (clock w))))
        as [counter [[fps latency_ms]|e]] eqn:Htick; simpl.
      * split_and!; done.
      * split_and!; by eauto.
    + split_and!; by eauto.
  - split_and!; try done. intros _. split_and!; try done. by exists f.
Qed.

(** X16: [stop()] is honoured at the next test of the loop condition: when
    the consumer has called it by the [k]-th test (counting from 0), at
    most [k] frames are read in the run and at most [k] are handed to the
    plugin. *)
Theorem stop_bounds_frames_read env (self self' : FrameProcessorRunner P) evs k :
  _run_loop env self = Some (self', evs) →
  stop_called env k = true →
  length (frames_read evs) ≤ k
  ∧ length (frames_processed evs) ≤ k.
Proof.
  intros Hrun Hstop.
  assert (Hloop : ∀ fuel (w w' : Worker) evs,
             loop fuel env w = Some (w', evs) →
             tests w ≤ k →
             length (frames_read evs) + tests w ≤ k
             ∧ length (frames_processed evs) ≤ length (frames_read evs)).
  { induction fuel as [|fuel IH]; intros w w' evs0; [done|].
    simpl. pose proof (iteration_spec env w) as Hit.
    pose proof (iteration_flow env w) as Hfl.
    destruct (iteration env w) as [evs1 [w1|w1|w1]].
    - destruct Hit as (_ & f & s & Hpass & _).
      destruct Hfl as (Hnot & _ & _ & Htests & Hproc & _).
      destruct (loop fuel env w1) as [[w2 rest]|] eqn:Hrest; [|done].
      simpl. intros [= <- <-] Hle.
      assert (tests w ≠ k) by congruence.
      destruct (IH _ _ _ Hrest) as [Hcount Hp]; [lia|].
      destruct (pass_events_inv _ _ _ _ Hpass) as (Hf & _).
      rewrite frames_read_app, Hf. unfold frames_processed in *.
      rewrite omap_app, !length_app, Hproc. simpl.
      split; [lia|]. destruct (plugged (self_ w)); rewrite ?Hf; simpl; lia.
    - destruct Hit as (_ & Hf & _). destruct Hfl as (_ & _ & _ & Hproc & _).
      intros [= <- <-] Hle. rewrite frames_read_app, Hf.
      unfold frames_processed in *. rewrite omap_app, Hproc. simpl. lia.
    - destruct Hit as (_ & _ & (f & Hf & _) & _).
      destruct Hfl as (Hnot & _ & Hproc).
      intros [= <- <-] Hle. assert (tests w ≠ k) by congruence.
      rewrite Hproc, Hf. simpl. lia. }
  unfold _run_loop in Hrun.
  match type of Hrun with
  | context [loop ?fuel env ?w] =>
      destruct (loop fuel env w) as [[w' evs']|] eqn:Hl; [|done];
      apply Hloop in Hl; [|simpl; lia]
  end.
  simpl in Hrun. injection Hrun as <- <-. simpl in Hl. lia.
Qed.

(** X17: the running flag is cleared only by [stop()] and by a failure: a
    run that ends because the source ran dry, with no [stop()] call and no
    error, leaves the flag as it was, so on a runner that was started a
    later [start()] starts no worker. *)
Theorem end_of_stream_leaves_running_flag env
    (self self' : FrameProcessorRunner P) evs :
  _run_loop env self = Some (self', evs) →
  (∀ n, stop_called env n = false) →
  failed evs = false →
  _running self' = _running self
  ∧ (_running self = true → start self' = (self', [])).
Proof.
  intros Hrun Hnever Hclean.
  assert (Hloop : ∀ fuel (w w' : Worker) evs,
             loop fuel env w = Some (w', evs) →
             failed evs = false →
             _running (self_ w') = _running (self_ w)).
  { induction fuel as [|fuel IH]; intros w w' evs0; [done|].
    simpl. pose proof (iteration_spec env w) as Hit.
    pose proof (iteration_flow env w) as Hfl.
    destruct (iteration env w) as [evs1 [w1|w1|w1]].
    - destruct Hfl as (_ & Hr & Hr1 & _).
      destruct (loop fuel env w1) as [[w2 rest]|] eqn:Hrest; [|done].
      simpl. intros [= <- <-] Hc. rewrite failed_app in Hc.
      apply orb_false_elim in Hc as [_ Hc].
      rewrite (IH _ _ _ Hrest Hc). congruence.
    - destruct Hfl as (Hr & _). intros [= <- <-] _.
      by rewrite Hr, Hnever.
    - destruct Hit as (_ & _ & _ & message & Hsig).
      intros [= <- <-] Hc. unfold failed in Hc. by rewrite Hsig in Hc. }
  assert (Hflag : _running self' = _running self).
  { unfold _run_loop in Hrun.
    match type of Hrun with
    | context [loop ?fuel env ?w] =>
        destruct (loop fuel env w) as [[w' evs']|] eqn:Hl; [|done]
    end.
    simpl in Hrun. injection Hrun as <- <-. by apply Hloop in Hl. }
  split; [done|]. intros Hstarted. unfold start.
  by rewrite Hflag, Hstarted.
Qed.

(** X18: the metrics start afresh with every run: the first frame-ready
    signal of a run carries FPS 0, latency 0 and rolling average 0,
    whatever the counter held before the run. *)
Theorem first_frame_has_zero_metrics env (self self' : FrameProcessorRunner P)
    evs frame results fps latency_ms rolling_ms rest :
  _run_loop env self = Some (self', evs) →
  signals evs = frame_processed frame results fps latency_ms rolling_ms :: rest →
  fps = 0%float ∧ latency_ms = 0%float ∧ rolling_ms = 0%float.
Proof.
  unfold _run_loop.
  match goal with
  | |- context [loop ?fuel env ?w] => generalize fuel; intros fuel'
  end.
  destruct fuel' as [|fuel']; [done|]. simpl.
  unfold iteration. simpl.
  set (self0 := if stop_called env 0 then _ else _).
  assert (Hcounter : _fps_counter self0 = reset (_fps_counter self))
    by (subst self0; by destruct (stop_called env 0)).
  clearbody self0.
  destruct (_running self0 && is_opened (_capture self0)); simpl;
    [|by intros [= <- <-]].
  destruct (capture.read (_capture self0)) as [[ok fr] cap].
  destruct ok; [destruct fr as [f|]|]; simpl; try by intros [= <- <-].
  destruct (_plugin self0) as [plugin|]; simpl.
  - destruct (process plugin f (perf_counter env 0))
      as [plugin' [[annotated results']|e]]; simpl; [|by intros [= <- <-]].
    rewrite Hcounter. unfold tick, reset. simpl.
    destruct (loop fuel' env _) as [[w2 rest']|]; [|done].
    simpl. intros [= <- <-]. simpl. by intros [= <- <- <- <- <- <-].
  - destruct (loop fuel' env _) as [[w2 rest']|]; [|done].
    simpl. intros [= <- <-]. simpl. by intros [= <- <- <- <- <- <-].
Qed.

(** X19: in pass-through mode a run hands every frame it reads to the
    consumer unchanged, each with the empty dictionary and zero timing, in
    the order read, then emits stopped; it calls no plugin and leaves the
    metrics as the reset at the start of the run left them. *)
Theorem passthrough_run_forwards_frames env
    (self self' : FrameProcessorRunner P) evs :
  _plugin self = None →
  _run_loop env self = Some (self', evs) →
  signals evs
  = ((λ f, frame_processed f ∅ 0%float 0%float 0%float) <$> frames_read evs)
    ++ [stopped]
  ∧ outcomes evs = []
  ∧ _plugin self' = None
  ∧ _fps_counter self' = reset (_fps_counter self).
Proof.
  intros Hnone Hrun.
  assert (Hloop : ∀ fuel (w w' : Worker) evs,
             _plugin (self_ w) = None →
             loop fuel env w = Some (w', evs) →
             signals evs
             = ((λ f, frame_processed f ∅ 0%float 0%float 0%float)
                  <$> frames_read evs) ++ [stopped]
             ∧ outcomes evs = []
             ∧ _plugin (self_ w') = None
             ∧ _fps_counter (self_ w') = _fps_counter (self_ w)).
  { induction fuel as [|fuel IH]; intros w w' evs0 Hp; [done|].
    simpl. pose proof (iteration_spec env w) as Hit.
    pose proof (iteration_flow env w) as Hfl.
    destruct (iteration env w) as [evs1 [w1|w1|w1]].
    - destruct Hfl as (_ & _ & _ & _ & _ & Hpass).
      destruct (Hpass Hp) as (Hp1 & Hc1 & f & Hevs).
      destruct (loop fuel env w1) as [[w2 rest]|] eqn:Hrest; [|done].
      simpl. intros [= <- <-].
      destruct (IH _ _ _ Hp1 Hrest) as (Hs & Ho & Hp2 & Hc2).
      rewrite signals_app, frames_read_app, outcomes_app, Hs, Ho, Hevs.
      split_and!; try done. congruence.
    - destruct Hit as (_ & Hf & Hs).
      destruct Hfl as (_ & Hp1 & Hc1 & _ & Ho). intros [= <- <-].
      rewrite signals_app, frames_read_app, outcomes_app, Hs, Hf, Ho.
      split_and!; try done. congruence.
    - destruct Hfl as (_ & [plugin Hsome] & _). congruence. }
  unfold _run_loop in Hrun.
  match type of Hrun with
  | context [loop ?fuel env ?w] =>
      destruct (loop fuel env w) as [[w' evs']|] eqn:Hl; [|done];
      apply Hloop in Hl; [|done]
  end.
  simpl in Hrun. injection Hrun as <- <-. exact Hl.
Qed.

Lemma outcomes_per_call evs :
  length (outcomes evs) = length (frames_processed evs).
Proof.
  induction evs as [|[ok frame|f ts o|s] evs IH]; simpl; try done.
  by rewrite IH.
Qed.

(** X20: a runner with a plugin hands every frame it reads to the plugin,
    once and in the order read, also the frame on which the run fails; a
    runner without a plugin makes no call. *)
Theorem every_frame_read_is_processed env
    (self self' : FrameProcessorRunner P) evs :
  _run_loop env self = Some (self', evs) →
  frames_processed evs = (if plugged self then frames_read evs else [])
  ∧ length (outcomes evs) = length (frames_processed evs).
Proof.
  intros Hrun. split; [|apply outcomes_per_call].
  assert (Hloop : ∀ fuel (w w' : Worker) evs,
             loop fuel env w = Some (w', evs) →
             frames_processed evs
             = (if plugged (self_ w) then frames_read evs else [])).
  { induction fuel as [|fuel IH]; intros w w' evs0; [done|].
    simpl. pose proof (iteration_spec env w) as Hit.
    pose proof (iteration_flow env w) as Hfl.
    destruct (iteration env w) as [evs1 [w1|w1|w1]].
    - destruct Hit as (Hplug & _). destruct Hfl as (_ & _ & _ & _ & Hproc & _).
      destruct (loop fuel env w1) as [[w2 rest]|] eqn:Hrest; [|done].
      simpl. intros [= <- <-]. apply IH in Hrest. rewrite Hplug in Hrest.
      unfold frames_processed in *. rewrite omap_app, Hproc, Hrest.
      rewrite frames_read_app. by destruct (plugged (self_ w)).
    - destruct Hit as (_ & Hf & _). destruct Hfl as (_ & _ & _ & Hproc & _).
      intros [= <- <-]. unfold frames_processed in *.
      rewrite omap_app, Hproc, frames_read_app, Hf. simpl.
      by destruct (plugged (self_ w)).
    - destruct Hfl as (_ & [plugin Hsome] & Hproc). intros [= <- <-].
      unfold plugged. rewrite Hsome.
      by rewrite bool_decide_eq_true_2 by eauto. }
  unfold _run_loop in Hrun.
  match type of Hrun with
  | context [loop ?fuel env ?w] =>
      destruct (loop fuel env w) as [[w' evs']|] eqn:Hl; [|done];
      apply Hloop in Hl
  end.
  simpl in Hrun. injection Hrun as <- <-. exact Hl.
Qed.

(** X21: a run on a runner that was not started, or whose source is not
    open, emits the stopped signal and nothing else: it reads no frame,
    calls no plugin, and leaves source and plugin as they are. *)
Theorem run_without_source_only_stops env (self : FrameProcessorRunner P) :
  _running self = false ∨ is_opened (_capture self) = false →
  ∃ self', _run_loop env self = Some (self', [Emit stopped])
           ∧ _capture self' = _capture self
           ∧ _plugin self' = _plugin self.
Proof.
  intros Hidle. unfold _run_loop. simpl. unfold iteration. simpl.
  destruct (stop_called env 0); simpl.
  - eexists. split; [reflexivity|]. done.
  - destruct Hidle as [-> | ->]; simpl; rewrite ?andb_false_r.
    + eexists. split; [reflexivity|]. done.
    + eexists. split; [reflexivity|]. done.
Qed.

End runner_runs.

Section runner_exercised.
Import cv2 capture utils base runner.

Lemma end_of_stream_leaves_running_flag_witness :
  let self := demo.started (Some (demo.mkFlaky 0)) 3 in
  let run := _run_loop demo.quarter_seconds self in
  _running (demo.final_of self run) = true
  ∧ start (demo.final_of self run) = (demo.final_of self run, []).
Proof.
  intros self run.
  destruct (end_of_stream_leaves_running_flag demo.quarter_seconds self
              (demo.final_of self run) (demo.events_of run))
    as [Hflag Hstart]; [reflexivity|done|reflexivity|].
  split; [by rewrite Hflag|by apply Hstart].
Defined.

Lemma first_frame_has_zero_metrics_witness :
  let busy := with_counter (demo.started (Some (demo.mkFlaky 0)) 2)
                demo.used_counter in
  let evs := demo.events_of (_run_loop demo.quarter_seconds busy) in
  head (signals evs)
  = Some (frame_processed (demo.frame 0)
            (models.unified_results_schema "flaky" 0%float None None None)
            0%float 0%float 0%float)
  ∧ (0 = 0 ∧ 0 = 0 ∧ 0 = 0)%float.
Proof.
  intros busy evs. split; [reflexivity|].
  apply (first_frame_has_zero_metrics demo.quarter_seconds busy
           (demo.final_of busy (_run_loop demo.quarter_seconds busy)) evs
           (demo.frame 0)
           (models.unified_results_schema "flaky" 0%float None None None)
           0%float 0%float 0%float (drop 1 (signals evs)));
    reflexivity.
Defined.

Lemma passthrough_run_forwards_frames_witness :
  let self := demo.started (@None demo.Flaky) 2 in
  let evs := demo.events_of (_run_loop demo.quarter_seconds self) in
  signals evs
  = [frame_processed (demo.frame 0) ∅ 0%float 0%float 0%float;
     frame_processed (demo.frame 1) ∅ 0%float 0%float 0%float;
     stopped].
Proof.
  intros self evs.
  destruct (passthrough_run_forwards_frames demo.quarter_seconds self
              (demo.final_of self (_run_loop demo.quarter_seconds self)) evs)
    as [Hsig _]; [reflexivity..|].
  rewrite Hsig. reflexivity.
Defined.

Lemma every_frame_read_is_processed_witness :
  let self := demo.started (Some (demo.mkFlaky 0)) 7 in
  let evs := demo.events_of (_run_loop demo.quarter_seconds self) in
  frames_processed evs = frames_read evs ∧ length (outcomes evs) = 5.
Proof.
  intros self evs.
  destruct (every_frame_read_is_processed demo.quarter_seconds self
              (demo.final_of self (_run_loop demo.quarter_seconds self)) evs)
    as [Hsame Hcount]; [reflexivity|].
  split; [exact Hsame|]. rewrite Hcount. reflexivity.
Defined.

Lemma run_without_source_only_stops_witness :
  demo.events_of
    (_run_loop demo.quarter_seconds
       (FrameProcessorRunner_init (P := demo.Flaky) VideoCaptureSource_init))
  = [Emit stopped].
Proof.
  destruct (run_without_source_only_stops demo.quarter_seconds
              (FrameProcessorRunner_init (P := demo.Flaky)
                 VideoCaptureSource_init)) as (self' & -> & _);
    [by left|reflexivity].
Defined.

Lemma stop_bounds_frames_read_witness :
  let self := demo.started (Some (demo.mkFlaky 0)) 9 in
  let evs := demo.events_of (_run_loop demo.stop_after_three self) in
  length (frames_read evs) ≤ 3 ∧ length (frames_processed evs) ≤ 3.
Proof.
  intros self evs.
  apply (stop_bounds_frames_read demo.stop_after_three self
           (demo.final_of self (_run_loop demo.stop_after_three self)) evs 3);
    reflexivity.
Defined.

End runner_exercised.

(** ** More on the plugin registry (plugins/__init__.py) *)

Section registry_sources.
Import plugins.

Lemma substring_app_length (s t : string) :
  String.substring 0 (String.length s) (s +:+ t) = s.
Proof.
  induction s as [|a s IH]; simpl.
  - by destruct t.
  - by rewrite IH.
Qed.

Lemma string_length_app (s t : string) :
  String.length (s +:+ t) = String.length s + String.length t.
Proof. induction s as [|a s IH]; simpl; [done|]. by rewrite IH. Qed.

Lemma stem_app_py (name : string) : stem (name +:+ ".py") = name.
Proof.
  unfold stem. rewrite string_length_app. simpl.
  replace (String.length name + 3 - 3) with (String.length name) by lia.
  apply substring_app_length.
Qed.

Lemma prefix_underscore_app (name t : string) :
  name ≠ "" → String.prefix "_" (name +:+ t) = String.prefix "_" name.
Proof.
  destruct name as [|a name]; [done|]. intros _.
  change (String a name +:+ t) with (String a (name +:+ t)).
  cbn -[Ascii.ascii_dec]. destruct (Ascii.ascii_dec _ _); [|done].
  generalize (name +:+ t). intros s. by destruct s, name.
Qed.

(** X22: for a file named after a module, [name.py] with a non-empty
    [name], the loop's tests read the module name: the stem is [name], the
    file is private exactly when [name] starts with an underscore, and it
    is [base.py] exactly when [name] is [base]. *)
Theorem module_file_name_tests :
  ∀ name,
    name ≠ "" →
    stem (name +:+ ".py") = name
    ∧ String.prefix "_" (name +:+ ".py") = String.prefix "_" name
    ∧ (name +:+ ".py" = "base.py" ↔ name = "base").
Proof.
  intros name Hname. split_and!.
  - apply stem_app_py.
  - by apply prefix_underscore_app.
  - split; [|by intros ->].
    intros Hb. rewrite <- (stem_app_py name), Hb. reflexivity.
Qed.

Lemma module_file_name_tests_witness :
  stem ("custom" +:+ ".py") = "custom"
  ∧ String.prefix "_" ("custom" +:+ ".py") = String.prefix "_" "custom"
  ∧ ("custom" +:+ ".py" = "base.py" ↔ "custom" = "base").
Proof. apply (module_file_name_tests "custom"). discriminate. Defined.

(** X23: in a directory with no file named just [.py], the second loop
    loads exactly the modules of the listed files that are not private (no
    leading underscore), not [base.py] and not built-in: a built-in module
    is never loaded a second time, and [__init__.py] and [base.py] are
    never loaded as plugins. *)
Theorem extra_modules_are_public_files :
  ∀ d,
    ".py" ∉ glob_py d →
    (∀ name, name ∈ extra_modules d →
        (name ∉ _BUILTIN_PLUGINS)
        ∧ ∃ file, file ∈ glob_py d ∧ stem file = name
                  ∧ String.prefix "_" file = false ∧ file ≠ "base.py")
    ∧ (∀ name, name +:+ ".py" ∈ glob_py d →
          String.prefix "_" name = false → name ≠ "base" →
          name ∉ _BUILTIN_PLUGINS →
          name ∈ extra_modules d).
Proof.
  intros d Hdot. unfold extra_modules. split.
  - intros name [Hnew Hin]%list_elem_of_filter. split; [done|].
    apply list_elem_of_fmap in Hin as (file & -> & Hfile).
    apply list_elem_of_filter in Hfile as [Hpublic Hfile].
    exists file. split_and!; try done.
    + destruct (String.prefix "_" file) eqn:Hp; [|done]. by destruct Hpublic; left.
    + intros ->. by destruct Hpublic; right.
  - intros name Hfile Hpublic Hbase Hnew.
    assert (name ≠ "") as Hname by (intros ->; by apply Hdot).
    apply list_elem_of_filter. split; [done|].
    apply list_elem_of_fmap. exists (name +:+ ".py").
    split; [by rewrite stem_app_py|].
    apply list_elem_of_filter. split; [|done].
    intros [Hp|Hb].
    + rewrite prefix_underscore_app in Hp by done. congruence.
    + apply Hbase. rewrite <- (stem_app_py name), Hb. reflexivity.
Qed.

Lemma load_each_keeps d names acc acc' :
  load_each d names acc = Ok acc' →
  acc.1 `prefix_of` acc'.1
  ∧ ∀ p, p ∈ acc'.1 →
      p ∈ acc.1
      ∨ (id_of p ≠ ""
         ∧ ∃ name, name ∈ names ∧ _load_plugin_from_module d name = Ok (Some p)).
Proof.
  revert acc. induction names as [|n names IH]; intros acc; simpl.
  - intros [= <-]. split; [done|]. by left.
  - destruct (_load_plugin_from_module d n) as [p0|e] eqn:Hload; [|done].
    simpl. intros Hrest. destruct (IH _ Hrest) as [Hpre Hfrom].
    split; [etrans; [apply keep_prefix|done]|].
    intros p Hp. destruct (Hfrom p Hp) as [Hkept|(Hid & name & Hin & Hname)].
    + destruct p0 as [q|]; simpl in Hkept; [|by left].
      case_decide as Hnew; [|by left]. simpl in Hkept.
      apply elem_of_app in Hkept as [Hold|Hq]; [by left|].
      apply list_elem_of_singleton in Hq. subst q. right.
      split; [by destruct Hnew|]. exists n. split; [by left|done].
    + right. split; [done|]. exists name. split; [by right|done].
Qed.

(** X24: every plugin [discover_plugins] returns has a non-empty
    identifier and is the plugin of a module it loaded, built-in or extra;
    and the plugins of the built-in modules come first: the list found
    from the built-in modules alone is a prefix of the result. *)
Theorem discovered_plugins_are_loaded :
  ∀ d ps,
    discover_plugins d = Ok ps →
    (∀ p, p ∈ ps →
        id_of p ≠ ""
        ∧ ∃ name, name ∈ _BUILTIN_PLUGINS ++ extra_modules d
                  ∧ _load_plugin_from_module d name = Ok (Some p))
    ∧ ∃ acc, load_each d _BUILTIN_PLUGINS ([], ∅) = Ok acc
             ∧ acc.1 `prefix_of` ps.
Proof.
  intros d ps. unfold discover_plugins.
  destruct (load_each d _BUILTIN_PLUGINS ([], ∅)) as [acc1|e] eqn:Hb; [|done].
  simpl. destruct (load_each d (extra_modules d) acc1) as [acc2|e] eqn:Hx; [|done].
  simpl. intros [= <-].
  destruct (load_each_keeps _ _ _ _ Hb) as [_ Hfrom1].
  destruct (load_each_keeps _ _ _ _ Hx) as [Hpre Hfrom2].
  split; [|by exists acc1].
  intros p Hp. destruct (Hfrom2 p Hp) as [Hold|(Hid & name & Hin & Hname)].
  - destruct (Hfrom1 p Hold) as [Hnil|(Hid & name & Hin & Hname)].
    + by apply not_elem_of_nil in Hnil.
    + split; [done|]. exists name. split; [|done].
      apply (proj2 (elem_of_app _BUILTIN_PLUGINS (extra_modules d) name)). by left.
  - split; [done|]. exists name. split; [|done].
    apply (proj2 (elem_of_app _BUILTIN_PLUGINS (extra_modules d) name)). by right.
Qed.

Lemma discovered_plugins_are_loaded_witness :
  let p := mkPlugin _ (pose.plugin_class (H := demo.no_models))
             pose.PosePlugin_init in
  let d := mkPluginsDir
             (λ name, if decide (name = "pose") then demo.module_with p
                      else NotAFile)
             ["__init__.py"; "base.py"; "pose.py"] in
  discover_plugins d = Ok [p] ∧ id_of p ≠ "".
Proof.
  intros p d.
  assert (discover_plugins d = Ok [p]) as Hd by reflexivity.
  split; [exact Hd|].
  destruct (discovered_plugins_are_loaded d [p] Hd) as [Hfrom _].
  destruct (Hfrom p) as [Hid _]; [apply list_elem_of_here|exact Hid].
Defined.

Lemma extra_modules_are_public_files_witness :
  "custom" ∈ extra_modules
               (mkPluginsDir (λ _, NotAFile) ["__init__.py"; "custom.py"; "pose.py"]).
Proof.
  destruct (extra_modules_are_public_files
              (mkPluginsDir (λ _, NotAFile)
                 ["__init__.py"; "custom.py"; "pose.py"])) as [_ Hloaded].
  - simpl. set_solver.
  - apply (Hloaded "custom").
    + simpl. set_solver.
    + reflexivity.
    + done.
    + unfold _BUILTIN_PLUGINS. set_solver.
Defined.

End registry_sources.
